(** * goose/testservices/identityservice: the user/password identity double

    A shallow embedding of [userpass.go].  The handler [ServeHTTP] and its
    helpers [AddUser] and [ReturnFailure] are written in a small state monad
    over the three things the Go code mutates or reads through a pointer:
    the [users] map of the [*UserPass] receiver, the [http.ResponseWriter]
    and the log of accesses to the map.

    The Go standard library is not part of the repository.  The parts of it
    the handler calls are modelled here:
    - [encoding/json]: a byte-level lexer, a push-down parser building a JSON
      tree, the string (un)quoting of the decoder and encoder, and the
      reflection-driven decoding into (encoding of) the structs of this file;
    - [net/http]: [Header], the observable behaviour of a [ResponseWriter]
      (as recorded by [httptest.ResponseRecorder]) and [StatusText].
    The handler itself is written against an interface [EncodingJson], so
    that the error results of [json.Marshal] that the code tests for can be
    talked about; [GoJson] is the instance given by the model. *)

From Stdlib Require Import ZArith NArith String Ascii List Bool Lia DecimalString.
From Stdlib Require DecimalFacts DecimalPos DecimalZ.
From stdpp Require Import gmap strings.
Import ListNotations.

Open Scope string_scope.

(** ** Bytes and strings

    A Go [string] and a [[]byte] are sequences of bytes: [string] here. *)

Definition dq : ascii := "034"%char.
Definition backslash : ascii := "092"%char.

(** String literals of the source that contain double quotes are written
    with an apostrophe for each double quote; [jq] puts the quotes back.
    None of the literals of [userpass.go] contains an apostrophe. *)
Fixpoint jq (s : string) : string :=
  match s with
  | EmptyString => EmptyString
  | String c s' => String (if Ascii.eqb c "'"%char then dq else c) (jq s')
  end.

Definition code (c : ascii) : N := N_of_ascii c.
Definition chr (n : N) : ascii := ascii_of_N n.

Definition in_range (lo hi : N) (c : ascii) : bool :=
  ((lo <=? code c) && (code c <=? hi))%N.

Definition is_space (c : ascii) : bool :=
  Ascii.eqb c " "%char || Ascii.eqb c (chr 9) || Ascii.eqb c (chr 10) || Ascii.eqb c (chr 13).
Definition is_digit (c : ascii) : bool := in_range 48 57 c.
Definition is_digit19 (c : ascii) : bool := in_range 49 57 c.
Definition is_hex (c : ascii) : bool :=
  is_digit c || in_range 97 102 c || in_range 65 70 c.
Definition is_exp (c : ascii) : bool := Ascii.eqb c "e"%char || Ascii.eqb c "E"%char.
Definition is_sign (c : ascii) : bool := Ascii.eqb c "+"%char || Ascii.eqb c "-"%char.

Definition snoc (s : string) (c : ascii) : string := s +:+ String c EmptyString.

Fixpoint take_bytes (n : nat) (s : string) : string :=
  match n, s with
  | S n', String c s' => String c (take_bytes n' s')
  | _, _ => EmptyString
  end.

Fixpoint drop_bytes (n : nat) (s : string) : string :=
  match n, s with
  | S n', String _ s' => drop_bytes n' s'
  | _, _ => s
  end.

(** ** unicode/utf8 and unicode/utf16, as far as the decoder uses them *)

(** [utf8.EncodeRune]: surrogates and values above U+10FFFF are encoded as
    U+FFFD. *)
Definition is_surrogate (r : N) : bool := ((55296 <=? r) && (r <? 57344))%N.

Definition RuneError : N := 65533.

Definition EncodeRune (r : N) : string :=
  let r := if is_surrogate r || (1114111 <? r)%N then RuneError else r in
  if (r <=? 127)%N then String (chr r) EmptyString
  else if (r <=? 2047)%N then
    String (chr (192 + r / 64)) (String (chr (128 + r mod 64)) EmptyString)
  else if (r <=? 65535)%N then
    String (chr (224 + r / 4096))
      (String (chr (128 + (r / 64) mod 64)) (String (chr (128 + r mod 64)) EmptyString))
  else
    String (chr (240 + r / 262144))
      (String (chr (128 + (r / 4096) mod 64))
         (String (chr (128 + (r / 64) mod 64)) (String (chr (128 + r mod 64)) EmptyString))).

(** The number of bytes of the well-formed UTF-8 sequence [s] starts with,
    [None] where [utf8.DecodeRune] answers [(RuneError, 1)].  [s] starts with
    a byte of 0x80 or more. *)
Definition utf8_len (s : string) : option nat :=
  match s with
  | String b0 (String b1 rest) =>
      if in_range 194 223 b0 then
        if in_range 128 191 b1 then Some 2%nat else None
      else
        match rest with
        | String b2 rest' =>
            let second3 :=
              if Ascii.eqb b0 (chr 224) then in_range 160 191 b1
              else if Ascii.eqb b0 (chr 237) then in_range 128 159 b1
              else in_range 128 191 b1 in
            if in_range 224 239 b0 then
              if second3 && in_range 128 191 b2 then Some 3%nat else None
            else
              match rest' with
              | String b3 _ =>
                  let second4 :=
                    if Ascii.eqb b0 (chr 240) then in_range 144 191 b1
                    else if Ascii.eqb b0 (chr 244) then in_range 128 143 b1
                    else in_range 128 191 b1 in
                  if in_range 240 244 b0 && second4
                     && in_range 128 191 b2 && in_range 128 191 b3
                  then Some 4%nat else None
              | EmptyString => None
              end
        | EmptyString => None
        end
  | _ => None
  end.

Definition hex_val (c : ascii) : N :=
  if is_digit c then code c - 48
  else if in_range 97 102 c then code c - 87
  else code c - 55.

(** [getu4]: the rune of a [\uXXXX] escape, given the bytes after [\u]. *)
Definition getu4 (s : string) : option (N * string) :=
  match s with
  | String a (String b (String c (String d rest))) =>
      if is_hex a && is_hex b && is_hex c && is_hex d then
        Some (hex_val a * 4096 + hex_val b * 256 + hex_val c * 16 + hex_val d, rest)%N
      else None
  | _ => None
  end.

(** [utf16.DecodeRune]: the rune of a surrogate pair, U+FFFD for anything
    else. *)
Definition utf16_DecodeRune (r1 r2 : N) : N :=
  if ((55296 <=? r1) && (r1 <? 56320) && (56320 <=? r2) && (r2 <? 57344))%N
  then ((r1 - 55296) * 1024 + (r2 - 56320) + 65536)%N
  else RuneError.

Definition unescape (c : ascii) : ascii :=
  if Ascii.eqb c "b"%char then chr 8
  else if Ascii.eqb c "f"%char then chr 12
  else if Ascii.eqb c "n"%char then chr 10
  else if Ascii.eqb c "r"%char then chr 13
  else if Ascii.eqb c "t"%char then chr 9
  else c.

(** [unquote]: from the bytes between the quotes of a literal the scanner
    accepted to the string it denotes.  Ill-formed UTF-8 and unpaired
    surrogate escapes become U+FFFD. *)
Fixpoint unquote_go (fuel : nat) (s : string) : string :=
  match fuel with
  | O => EmptyString
  | S fuel' =>
      match s with
      | EmptyString => EmptyString
      | String c rest =>
          if Ascii.eqb c backslash then
            match rest with
            | EmptyString => EmptyString
            | String e rest' =>
                if Ascii.eqb e "u"%char then
                  match getu4 rest' with
                  | None => EmptyString
                  | Some (rr, rest'') =>
                      let single := EncodeRune rr +:+ unquote_go fuel' rest'' in
                      if is_surrogate rr then
                        match rest'' with
                        | String c1 (String c2 rest3) =>
                            if Ascii.eqb c1 backslash && Ascii.eqb c2 "u"%char then
                              match getu4 rest3 with
                              | Some (rr1, rest4) =>
                                  let dec := utf16_DecodeRune rr rr1 in
                                  if (dec =? RuneError)%N then single
                                  else EncodeRune dec +:+ unquote_go fuel' rest4
                              | None => single
                              end
                            else single
                        | _ => single
                        end
                      else single
                  end
                else String (unescape e) (unquote_go fuel' rest')
            end
          else if (code c <? 128)%N then String c (unquote_go fuel' rest)
          else
            match utf8_len s with
            | Some n => take_bytes n s +:+ unquote_go fuel' (drop_bytes n s)
            | None => EncodeRune RuneError +:+ unquote_go fuel' rest
            end
      end
  end.

Definition unquote (s : string) : string := unquote_go (String.length s) s.

(** ** encoding/json: the scanner

    The scanner of [encoding/json] is a state machine stepped once per input
    byte.  It is split here into a lexer, which cuts the input into tokens,
    and a push-down automaton over the tokens (below). *)

Inductive lexeme : Type :=
| TLBrace | TRBrace | TLBrack | TRBrack | TColon | TComma
| TString (s : string)      (* the string the literal denotes *)
| TNumber (lit : string)
| TTrue | TFalse | TNull.

(** Where the scanner is inside a number literal. *)
Inductive numstate : Type :=
| NMinus      (* after "-" *)
| NZero       (* after a leading "0" *)
| NInt        (* in the digits of the integer part *)
| NDot        (* after "." *)
| NFrac       (* in the digits of the fraction *)
| NExp        (* after "e" or "E" *)
| NExpSign    (* after the sign of the exponent *)
| NExpDigits. (* in the digits of the exponent *)

Inductive lstate : Type :=
| LIdle
| LStr (acc : string)                   (* inside a string literal; acc: its bytes so far *)
| LEsc (acc : string)                   (* after a backslash *)
| LHex (acc : string) (n : nat)         (* in \uXXXX, n digits to come *)
| LNum (ns : numstate) (acc : string)
| LLit (expect : string) (t : lexeme).   (* inside true, false or null *)

Definition num_step (ns : numstate) (c : ascii) : option numstate :=
  match ns with
  | NMinus => if Ascii.eqb c "0"%char then Some NZero
              else if is_digit19 c then Some NInt else None
  | NZero => if Ascii.eqb c "."%char then Some NDot
             else if is_exp c then Some NExp else None
  | NInt => if is_digit c then Some NInt
            else if Ascii.eqb c "."%char then Some NDot
            else if is_exp c then Some NExp else None
  | NDot => if is_digit c then Some NFrac else None
  | NFrac => if is_digit c then Some NFrac
             else if is_exp c then Some NExp else None
  | NExp => if is_sign c then Some NExpSign
            else if is_digit c then Some NExpDigits else None
  | NExpSign => if is_digit c then Some NExpDigits else None
  | NExpDigits => if is_digit c then Some NExpDigits else None
  end.

Definition num_final (ns : numstate) : bool :=
  match ns with
  | NZero | NInt | NFrac | NExpDigits => true
  | _ => false
  end.

(** Tokens are collected in reverse. *)
Definition lex_idle (c : ascii) (toks : list lexeme) : option (lstate * list lexeme) :=
  if is_space c then Some (LIdle, toks)
  else if Ascii.eqb c "{"%char then Some (LIdle, TLBrace :: toks)
  else if Ascii.eqb c "}"%char then Some (LIdle, TRBrace :: toks)
  else if Ascii.eqb c "["%char then Some (LIdle, TLBrack :: toks)
  else if Ascii.eqb c "]"%char then Some (LIdle, TRBrack :: toks)
  else if Ascii.eqb c ":"%char then Some (LIdle, TColon :: toks)
  else if Ascii.eqb c ","%char then Some (LIdle, TComma :: toks)
  else if Ascii.eqb c dq then Some (LStr EmptyString, toks)
  else if Ascii.eqb c "-"%char then Some (LNum NMinus (String c EmptyString), toks)
  else if Ascii.eqb c "0"%char then Some (LNum NZero (String c EmptyString), toks)
  else if is_digit19 c then Some (LNum NInt (String c EmptyString), toks)
  else if Ascii.eqb c "t"%char then Some (LLit "rue" TTrue, toks)
  else if Ascii.eqb c "f"%char then Some (LLit "alse" TFalse, toks)
  else if Ascii.eqb c "n"%char then Some (LLit "ull" TNull, toks)
  else None.

Definition is_simple_escape (c : ascii) : bool :=
  Ascii.eqb c dq || Ascii.eqb c backslash || Ascii.eqb c "/"%char
  || Ascii.eqb c "b"%char || Ascii.eqb c "f"%char || Ascii.eqb c "n"%char
  || Ascii.eqb c "r"%char || Ascii.eqb c "t"%char.

Definition lex_step (st : lstate) (toks : list lexeme) (c : ascii)
  : option (lstate * list lexeme) :=
  match st with
  | LIdle => lex_idle c toks
  | LStr acc =>
      if Ascii.eqb c dq then Some (LIdle, TString (unquote acc) :: toks)
      else if Ascii.eqb c backslash then Some (LEsc (snoc acc c), toks)
      else if (code c <? 32)%N then None
      else Some (LStr (snoc acc c), toks)
  | LEsc acc =>
      if is_simple_escape c then Some (LStr (snoc acc c), toks)
      else if Ascii.eqb c "u"%char then Some (LHex (snoc acc c) 4, toks)
      else None
  | LHex acc n =>
      if is_hex c then
        match n with
        | S (S n') => Some (LHex (snoc acc c) (S n'), toks)
        | _ => Some (LStr (snoc acc c), toks)
        end
      else None
  | LNum ns acc =>
      match num_step ns c with
      | Some ns' => Some (LNum ns' (snoc acc c), toks)
      | None => if num_final ns then lex_idle c (TNumber acc :: toks) else None
      end
  | LLit expect t =>
      match expect with
      | String e EmptyString =>
          if Ascii.eqb c e then Some (LIdle, t :: toks) else None
      | String e rest =>
          if Ascii.eqb c e then Some (LLit rest t, toks) else None
      | EmptyString => None
      end
  end.

Definition lex_end (st : lstate) (toks : list lexeme) : option (list lexeme) :=
  match st with
  | LIdle => Some (rev toks)
  | LNum ns acc => if num_final ns then Some (rev (TNumber acc :: toks)) else None
  | _ => None
  end.

(** The scanner run over the bytes of [s]. *)
Fixpoint lex_run (st : lstate) (toks : list lexeme) (s : string)
  : option (lstate * list lexeme) :=
  match s with
  | EmptyString => Some (st, toks)
  | String c s' =>
      match lex_step st toks c with
      | Some (st', toks') => lex_run st' toks' s'
      | None => None
      end
  end.

Definition lex (s : string) : option (list lexeme) :=
  match lex_run LIdle [] s with
  | Some (st, toks) => lex_end st toks
  | None => None
  end.

(** ** encoding/json: JSON values and the parser *)

#[warnings="-register-all"] Inductive json : Type :=
| JNull
| JBool (b : bool)
| JNumber (lit : string)
| JString (s : string)
| JArray (elems : list json)
| JObject (members : list (string * json)).

(** An open container on the parser's stack, its contents in reverse. *)
Inductive frame : Type :=
| FArr (elems : list json)
| FObj (members : list (string * json)) (key : string).

Inductive pstate : Type :=
| PValue          (* a value must follow *)
| PValueOrClose   (* after "[" *)
| PKeyOrClose     (* after "{" *)
| PKey            (* after "," in an object *)
| PColon          (* after a key *)
| PCommaOrClose   (* after a value in a container *)
| PDone (v : json).

(** A value is complete: it is the result, or goes into the container on top
    of the stack. *)
Definition reduce (v : json) (stack : list frame) : pstate * list frame :=
  match stack with
  | [] => (PDone v, [])
  | FArr elems :: st => (PCommaOrClose, FArr (v :: elems) :: st)
  | FObj members key :: st => (PCommaOrClose, FObj ((key, v) :: members) key :: st)
  end.

(** The scanner refuses to open more than [maxNestingDepth] containers. *)
Definition maxNestingDepth : N := 10000.

Definition can_nest (stack : list frame) : bool :=
  (N.of_nat (List.length stack) <? maxNestingDepth)%N.

Definition parse_value (t : lexeme) (stack : list frame) : option (pstate * list frame) :=
  match t with
  | TLBrace => if can_nest stack then Some (PKeyOrClose, FObj [] EmptyString :: stack) else None
  | TLBrack => if can_nest stack then Some (PValueOrClose, FArr [] :: stack) else None
  | TString s => Some (reduce (JString s) stack)
  | TNumber lit => Some (reduce (JNumber lit) stack)
  | TTrue => Some (reduce (JBool true) stack)
  | TFalse => Some (reduce (JBool false) stack)
  | TNull => Some (reduce JNull stack)
  | _ => None
  end.

Definition parse_key (t : lexeme) (stack : list frame) : option (pstate * list frame) :=
  match t, stack with
  | TString key, FObj members _ :: st => Some (PColon, FObj members key :: st)
  | _, _ => None
  end.

Definition parse_close (t : lexeme) (stack : list frame) : option (pstate * list frame) :=
  match t, stack with
  | TRBrack, FArr elems :: st => Some (reduce (JArray (rev elems)) st)
  | TRBrace, FObj members _ :: st => Some (reduce (JObject (rev members)) st)
  | _, _ => None
  end.

Definition parse_step (ps : pstate) (stack : list frame) (t : lexeme)
  : option (pstate * list frame) :=
  match ps with
  | PValue => parse_value t stack
  | PValueOrClose =>
      match t with
      | TRBrack => parse_close t stack
      | _ => parse_value t stack
      end
  | PKeyOrClose =>
      match t with
      | TRBrace => parse_close t stack
      | _ => parse_key t stack
      end
  | PKey => parse_key t stack
  | PColon =>
      match t with
      | TColon => Some (PValue, stack)
      | _ => None
      end
  | PCommaOrClose =>
      match t, stack with
      | TComma, FArr _ :: _ => Some (PValue, stack)
      | TComma, FObj _ _ :: _ => Some (PKey, stack)
      | _, _ => parse_close t stack
      end
  | PDone _ => None
  end.

Fixpoint parse_from (ps : pstate) (stack : list frame) (ts : list lexeme) : option json :=
  match ts with
  | [] => match ps with PDone v => Some v | _ => None end
  | t :: ts' =>
      match parse_step ps stack t with
      | Some (ps', stack') => parse_from ps' stack' ts'
      | None => None
      end
  end.

Definition parse_tokens (ts : list lexeme) : option json := parse_from PValue [] ts.

Definition parse_json (s : string) : option json :=
  match lex s with
  | Some ts => parse_tokens ts
  | None => None
  end.

(** [json.Valid]: the input is one JSON value, with white space around it. *)
Definition json_Valid (s : string) : bool :=
  match parse_json s with
  | Some _ => true
  | None => false
  end.

(** ** encoding/json: decoding into Go values

    [json.Unmarshal(data, &v)] first checks that [data] is valid JSON and
    then stores the value into [v], field by field.  A decoder takes the JSON
    value and the current content of the target and gives the new content
    and the error, if any: a JSON value that does not fit its target leaves
    the target as it is and is reported, but the remaining fields are still
    decoded; the first such error is the one returned. *)

(** A Go [error], identified with the text [Error()] returns. *)
Definition error : Type := string.

Definition dec (T : Type) : Type := json -> T -> T * option error.

Definition first_error (e1 e2 : option error) : option error :=
  match e1 with
  | Some _ => e1
  | None => e2
  end.

Definition kind_of (v : json) : string :=
  match v with
  | JNull => "null"
  | JBool _ => "bool"
  | JNumber _ => "number"
  | JString _ => "string"
  | JArray _ => "array"
  | JObject _ => "object"
  end.

(** The text of an [UnmarshalTypeError]. *)
Definition type_error (v : json) (gotype : string) : error :=
  "json: cannot unmarshal " +:+ kind_of v +:+ " into Go value of type " +:+ gotype.

(** The text of a [SyntaxError]; the position and the offending byte, which
    the real text names, are left out. *)
Definition syntax_error : error := "json: syntax error".

Definition lower (c : ascii) : ascii :=
  if in_range 65 90 c then chr (code c + 32) else c.

(** [strings.EqualFold name key] for an ASCII [name] (the field names of this
    file): letters match without regard to case, and the two non-ASCII runes
    that fold to a letter, U+212A (Kelvin sign) and U+017F (long s), match
    k and s. *)
Fixpoint EqualFold (name key : string) : bool :=
  match name, key with
  | EmptyString, EmptyString => true
  | String n name', String c key' =>
      if (code c <? 128)%N then Ascii.eqb (lower n) (lower c) && EqualFold name' key'
      else if Ascii.eqb (lower n) "k"%char then
        match key' with
        | String c1 (String c2 key'') =>
            Ascii.eqb c (chr 226) && Ascii.eqb c1 (chr 132) && Ascii.eqb c2 (chr 170)
            && EqualFold name' key''
        | _ => false
        end
      else if Ascii.eqb (lower n) "s"%char then
        match key' with
        | String c1 key'' =>
            Ascii.eqb c (chr 197) && Ascii.eqb c1 (chr 191) && EqualFold name' key''
        | _ => false
        end
      else false
  | _, _ => false
  end.

(** The field a key of a JSON object goes to: the one of that very name, or
    else the first whose name matches without regard to case. *)
Definition find_field {A : Type} (fields : list (string * A)) (key : string) : option A :=
  match find (fun f => String.eqb (fst f) key) fields with
  | Some f => Some (snd f)
  | None =>
      match find (fun f => EqualFold (fst f) key) fields with
      | Some f => Some (snd f)
      | None => None
      end
  end.

Definition decode_string : dec string :=
  fun v cur =>
    match v with
    | JString s => (s, None)
    | JNull => (cur, None)
    | _ => (cur, Some (type_error v "string"))
    end.

Definition decode_member {T : Type} (fields : list (string * dec T))
    (acc : T * option error) (m : string * json) : T * option error :=
  match find_field fields (fst m) with
  | Some d => let r := d (snd m) (fst acc) in (fst r, first_error (snd acc) (snd r))
  | None => acc
  end.

(** Keys that name no field are skipped; a key that occurs twice is decoded
    twice, into the same field. *)
Definition decode_struct {T : Type} (gotype : string) (fields : list (string * dec T)) : dec T :=
  fun v cur =>
    match v with
    | JNull => (cur, None)
    | JObject members => fold_left (decode_member fields) members (cur, None)
    | _ => (cur, Some (type_error v gotype))
    end.

(** A field of a struct: decode into its current content and put it back. *)
Definition field {T A : Type} (get : T -> A) (set : A -> T -> T) (d : dec A) : dec T :=
  fun v cur => let r := d v (get cur) in (set (fst r) cur, snd r).

(** A Go slice: [None] is the nil slice. *)
Definition slice (A : Type) : Type := option (list A).

Definition slice_elems {A : Type} (s : slice A) : list A :=
  match s with
  | Some l => l
  | None => []
  end.

Definition decode_elem {A : Type} (zero : A) (d : dec A) (old : list A)
    (acc : list A * option error) (e : json) : list A * option error :=
  let r := d e (nth (List.length (fst acc)) old zero) in
  ((fst acc ++ [fst r])%list, first_error (snd acc) (snd r)).

(** null gives the nil slice; the i-th element of an array is decoded into
    the i-th element the slice had, or into a zero value. *)
Definition decode_slice {A : Type} (gotype : string) (zero : A) (d : dec A) : dec (slice A) :=
  fun v cur =>
    match v with
    | JNull => (None, None)
    | JArray elems =>
        let r := fold_left (decode_elem zero d (slice_elems cur)) elems ([], None) in
        (Some (fst r), snd r)
    | _ => (cur, Some (type_error v gotype))
    end.

Definition Unmarshal {T : Type} (d : dec T) (data : string) (v : T) : T * option error :=
  match parse_json data with
  | Some j => d j v
  | None => (v, Some syntax_error)
  end.

(** ** encoding/json: encoding

    [json.Marshal] writes the fields of a struct in the order of their
    declaration, without white space, and escapes strings as [encodeString]
    does with HTML escaping on.  The short escapes are those of Go 1.22;
    earlier releases write backspace and form feed as [\u0008] and
    [\u000c]. *)

Definition hex_digit (n : N) : ascii :=
  if (n <? 10)%N then chr (48 + n) else chr (87 + n).

Definition u00 (c : ascii) : string :=
  String backslash (String "u" (String "0" (String "0"
    (String (hex_digit (code c / 16)) (String (hex_digit (code c mod 16)) EmptyString))))).

Definition escape_ascii (c : ascii) : string :=
  if Ascii.eqb c dq || Ascii.eqb c backslash then String backslash (String c EmptyString)
  else if Ascii.eqb c (chr 8) then String backslash "b"
  else if Ascii.eqb c (chr 12) then String backslash "f"
  else if Ascii.eqb c (chr 10) then String backslash "n"
  else if Ascii.eqb c (chr 13) then String backslash "r"
  else if Ascii.eqb c (chr 9) then String backslash "t"
  else if (code c <? 32)%N || Ascii.eqb c "<"%char || Ascii.eqb c ">"%char
          || Ascii.eqb c "&"%char then u00 c
  else String c EmptyString.

(** U+2028 and U+2029 (E2 80 A8 and E2 80 A9) are escaped, ill-formed UTF-8
    is written as the escape of U+FFFD, everything else is copied. *)
Fixpoint escape_go (fuel : nat) (s : string) : string :=
  match fuel with
  | O => EmptyString
  | S fuel' =>
      match s with
      | EmptyString => EmptyString
      | String c rest =>
          if (code c <? 128)%N then escape_ascii c +:+ escape_go fuel' rest
          else
            match utf8_len s with
            | None => String backslash "ufffd" +:+ escape_go fuel' rest
            | Some n =>
                let r := take_bytes n s in
                if String.eqb r (String (chr 226) (String (chr 128) (String (chr 168) EmptyString)))
                then String backslash "u2028" +:+ escape_go fuel' (drop_bytes n s)
                else if String.eqb r (String (chr 226) (String (chr 128) (String (chr 169) EmptyString)))
                then String backslash "u2029" +:+ escape_go fuel' (drop_bytes n s)
                else r +:+ escape_go fuel' (drop_bytes n s)
            end
      end
  end.

Definition encodeString (s : string) : string :=
  String dq (escape_go (String.length s) s) +:+ String dq EmptyString.

Definition encodeInt (n : Z) : string := NilZero.string_of_int (Z.to_int n).

Fixpoint join (sep : string) (l : list string) : string :=
  match l with
  | [] => EmptyString
  | [x] => x
  | x :: l' => x +:+ sep +:+ join sep l'
  end.

Definition encodeMember (m : string * string) : string :=
  encodeString (fst m) +:+ ":" +:+ snd m.

Definition encodeStruct (members : list (string * string)) : string :=
  "{" +:+ join "," (map encodeMember members) +:+ "}".

(** The nil slice is written as null. *)
Definition encodeSlice {A : Type} (enc : A -> string) (s : slice A) : string :=
  match s with
  | None => "null"
  | Some l => "[" +:+ join "," (map enc l) +:+ "]"
  end.

(** ** The structs of userpass.go *)

Record ErrorResponse : Type := {
  Message : string;   (* json:"message" *)
  Code : Z;           (* json:"code" *)
  Title : string      (* json:"title" *)
}.

Record ErrorWrapper : Type := {
  Error : ErrorResponse   (* json:"error" *)
}.

(** The two anonymous structs inside [UserPassRequest]. *)
Record PasswordCredentialsT : Type := {
  Username : string;   (* json:"username" *)
  Password : string    (* json:"password" *)
}.

Record AuthT : Type := {
  PasswordCredentials : PasswordCredentialsT;   (* json:"passwordCredentials" *)
  TenantName : string                           (* json:"tenantName" *)
}.

Record UserPassRequest : Type := {
  Auth : AuthT   (* json:"auth" *)
}.

(** Field names that occur in several structs carry the struct as prefix. *)
Record Endpoint : Type := {
  AdminURL : string;      (* json:"adminURL" *)
  InternalURL : string;   (* json:"internalURL" *)
  PublicURL : string;     (* json:"publicURL" *)
  Region : string         (* json:"region" *)
}.

Record Service : Type := {
  Service_Name : string;               (* json:"name" *)
  Service_Type : string;               (* json:"type" *)
  Service_Endpoints : slice Endpoint   (* no tag: the key is "Endpoints" *)
}.

Record TenantT : Type := {
  Tenant_Id : string;    (* json:"id" *)
  Tenant_Name : string   (* json:"name" *)
}.

Record TokenResponse : Type := {
  Token_Expires : string;   (* json:"expires" *)
  Token_Id : string;        (* json:"id", the actual token string *)
  Token_Tenant : TenantT    (* json:"tenant" *)
}.

Record RoleResponse : Type := {
  Role_Id : string;        (* json:"id" *)
  Role_Name : string;      (* json:"name" *)
  Role_TenantId : string   (* json:"tenantId" *)
}.

Record UserResponse : Type := {
  User_Id : string;                  (* json:"id" *)
  User_Name : string;                (* json:"name" *)
  User_Roles : slice RoleResponse    (* json:"roles" *)
}.

Record AccessT : Type := {
  ServiceCatalog : slice Service;   (* json:"serviceCatalog" *)
  Token : TokenResponse;            (* json:"token" *)
  User : UserResponse               (* json:"user" *)
}.

Record AccessResponse : Type := {
  Access : AccessT   (* json:"access" *)
}.

(** Modelled from the spec: the struct [UserInfo] is declared outside
    userpass.go.  The spec's UserRecord is "{secret: string, token: opaque
    string}", and [AddUser] builds it as [UserInfo{secret: secret, token:
    token}]. *)
Record UserInfo : Type := {
  secret : string;
  token : string
}.

(** Zero values. *)
Definition zero_UserPassRequest : UserPassRequest :=
  {| Auth := {| PasswordCredentials := {| Username := ""; Password := "" |};
                TenantName := "" |} |}.
Definition zero_Endpoint : Endpoint :=
  {| AdminURL := ""; InternalURL := ""; PublicURL := ""; Region := "" |}.
Definition zero_Service : Service :=
  {| Service_Name := ""; Service_Type := ""; Service_Endpoints := None |}.
Definition zero_RoleResponse : RoleResponse :=
  {| Role_Id := ""; Role_Name := ""; Role_TenantId := "" |}.
Definition zero_AccessResponse : AccessResponse :=
  {| Access := {| ServiceCatalog := None;
                  Token := {| Token_Expires := ""; Token_Id := "";
                              Token_Tenant := {| Tenant_Id := ""; Tenant_Name := "" |} |};
                  User := {| User_Id := ""; User_Name := ""; User_Roles := None |} |} |}.

(** *** Decoders of the structs *)

Definition decode_PasswordCredentials : dec PasswordCredentialsT :=
  decode_struct "struct"
    [("username", field Username (fun x c => {| Username := x; Password := Password c |}) decode_string);
     ("password", field Password (fun x c => {| Username := Username c; Password := x |}) decode_string)].

Definition decode_Auth : dec AuthT :=
  decode_struct "struct"
    [("passwordCredentials",
       field PasswordCredentials
         (fun x c => {| PasswordCredentials := x; TenantName := TenantName c |})
         decode_PasswordCredentials);
     ("tenantName",
       field TenantName
         (fun x c => {| PasswordCredentials := PasswordCredentials c; TenantName := x |})
         decode_string)].

Definition decode_UserPassRequest : dec UserPassRequest :=
  decode_struct "identityservice.UserPassRequest"
    [("auth", field Auth (fun x _ => {| Auth := x |}) decode_Auth)].

Definition decode_Endpoint : dec Endpoint :=
  decode_struct "identityservice.Endpoint"
    [("adminURL", field AdminURL
        (fun x c => {| AdminURL := x; InternalURL := InternalURL c;
                       PublicURL := PublicURL c; Region := Region c |}) decode_string);
     ("internalURL", field InternalURL
        (fun x c => {| AdminURL := AdminURL c; InternalURL := x;
                       PublicURL := PublicURL c; Region := Region c |}) decode_string);
     ("publicURL", field PublicURL
        (fun x c => {| AdminURL := AdminURL c; InternalURL := InternalURL c;
                       PublicURL := x; Region := Region c |}) decode_string);
     ("region", field Region
        (fun x c => {| AdminURL := AdminURL c; InternalURL := InternalURL c;
                       PublicURL := PublicURL c; Region := x |}) decode_string)].

Definition decode_Service : dec Service :=
  decode_struct "identityservice.Service"
    [("name", field Service_Name
        (fun x c => {| Service_Name := x; Service_Type := Service_Type c;
                       Service_Endpoints := Service_Endpoints c |}) decode_string);
     ("type", field Service_Type
        (fun x c => {| Service_Name := Service_Name c; Service_Type := x;
                       Service_Endpoints := Service_Endpoints c |}) decode_string);
     ("Endpoints", field Service_Endpoints
        (fun x c => {| Service_Name := Service_Name c; Service_Type := Service_Type c;
                       Service_Endpoints := x |})
        (decode_slice "[]identityservice.Endpoint" zero_Endpoint decode_Endpoint))].

Definition decode_Tenant : dec TenantT :=
  decode_struct "struct"
    [("id", field Tenant_Id (fun x c => {| Tenant_Id := x; Tenant_Name := Tenant_Name c |}) decode_string);
     ("name", field Tenant_Name (fun x c => {| Tenant_Id := Tenant_Id c; Tenant_Name := x |}) decode_string)].

Definition set_Token_Id (x : string) (c : TokenResponse) : TokenResponse :=
  {| Token_Expires := Token_Expires c; Token_Id := x; Token_Tenant := Token_Tenant c |}.

Definition decode_TokenResponse : dec TokenResponse :=
  decode_struct "identityservice.TokenResponse"
    [("expires", field Token_Expires
        (fun x c => {| Token_Expires := x; Token_Id := Token_Id c;
                       Token_Tenant := Token_Tenant c |}) decode_string);
     ("id", field Token_Id set_Token_Id decode_string);
     ("tenant", field Token_Tenant
        (fun x c => {| Token_Expires := Token_Expires c; Token_Id := Token_Id c;
                       Token_Tenant := x |}) decode_Tenant)].

Definition decode_RoleResponse : dec RoleResponse :=
  decode_struct "identityservice.RoleResponse"
    [("id", field Role_Id
        (fun x c => {| Role_Id := x; Role_Name := Role_Name c;
                       Role_TenantId := Role_TenantId c |}) decode_string);
     ("name", field Role_Name
        (fun x c => {| Role_Id := Role_Id c; Role_Name := x;
                       Role_TenantId := Role_TenantId c |}) decode_string);
     ("tenantId", field Role_TenantId
        (fun x c => {| Role_Id := Role_Id c; Role_Name := Role_Name c;
                       Role_TenantId := x |}) decode_string)].

Definition decode_UserResponse : dec UserResponse :=
  decode_struct "identityservice.UserResponse"
    [("id", field User_Id
        (fun x c => {| User_Id := x; User_Name := User_Name c;
                       User_Roles := User_Roles c |}) decode_string);
     ("name", field User_Name
        (fun x c => {| User_Id := User_Id c; User_Name := x;
                       User_Roles := User_Roles c |}) decode_string);
     ("roles", field User_Roles
        (fun x c => {| User_Id := User_Id c; User_Name := User_Name c;
                       User_Roles := x |})
        (decode_slice "[]identityservice.RoleResponse" zero_RoleResponse decode_RoleResponse))].

Definition set_Token (x : TokenResponse) (c : AccessT) : AccessT :=
  {| ServiceCatalog := ServiceCatalog c; Token := x; User := User c |}.

Definition decode_Access : dec AccessT :=
  decode_struct "struct"
    [("serviceCatalog", field ServiceCatalog
        (fun x c => {| ServiceCatalog := x; Token := Token c; User := User c |})
        (decode_slice "[]identityservice.Service" zero_Service decode_Service));
     ("token", field Token set_Token decode_TokenResponse);
     ("user", field User
        (fun x c => {| ServiceCatalog := ServiceCatalog c; Token := Token c; User := x |})
        decode_UserResponse)].

Definition decode_AccessResponse : dec AccessResponse :=
  decode_struct "identityservice.AccessResponse"
    [("access", field Access (fun x _ => {| Access := x |}) decode_Access)].

(** *** Encoders of the structs *)

Definition encodeErrorResponse (e : ErrorResponse) : string :=
  encodeStruct [("message", encodeString (Message e));
                ("code", encodeInt (Code e));
                ("title", encodeString (Title e))].

Definition encodeErrorWrapper (e : ErrorWrapper) : string :=
  encodeStruct [("error", encodeErrorResponse (Error e))].

Definition encodeEndpoint (e : Endpoint) : string :=
  encodeStruct [("adminURL", encodeString (AdminURL e));
                ("internalURL", encodeString (InternalURL e));
                ("publicURL", encodeString (PublicURL e));
                ("region", encodeString (Region e))].

Definition encodeService (s : Service) : string :=
  encodeStruct [("name", encodeString (Service_Name s));
                ("type", encodeString (Service_Type s));
                ("Endpoints", encodeSlice encodeEndpoint (Service_Endpoints s))].

Definition encodeTenant (t : TenantT) : string :=
  encodeStruct [("id", encodeString (Tenant_Id t));
                ("name", encodeString (Tenant_Name t))].

Definition encodeTokenResponse (t : TokenResponse) : string :=
  encodeStruct [("expires", encodeString (Token_Expires t));
                ("id", encodeString (Token_Id t));
                ("tenant", encodeTenant (Token_Tenant t))].

Definition encodeRoleResponse (r : RoleResponse) : string :=
  encodeStruct [("id", encodeString (Role_Id r));
                ("name", encodeString (Role_Name r));
                ("tenantId", encodeString (Role_TenantId r))].

Definition encodeUserResponse (u : UserResponse) : string :=
  encodeStruct [("id", encodeString (User_Id u));
                ("name", encodeString (User_Name u));
                ("roles", encodeSlice encodeRoleResponse (User_Roles u))].

Definition encodeAccess (a : AccessT) : string :=
  encodeStruct [("serviceCatalog", encodeSlice encodeService (ServiceCatalog a));
                ("token", encodeTokenResponse (Token a));
                ("user", encodeUserResponse (User a))].

Definition encodeAccessResponse (r : AccessResponse) : string :=
  encodeStruct [("access", encodeAccess (Access r))].

(** ** The interface of encoding/json the handler uses

    A call returns the pair the Go call returns: the result and the error,
    [None] for [nil]. *)
Class EncodingJson : Type := {
  json_Marshal_ErrorWrapper : ErrorWrapper -> string * option error;
  json_Marshal_AccessResponse : AccessResponse -> string * option error;
  json_Unmarshal_UserPassRequest : string -> UserPassRequest -> UserPassRequest * option error;
  json_Unmarshal_AccessResponse : string -> AccessResponse -> AccessResponse * option error
}.

(** The package as modelled above.  Encoding a struct of strings, integers,
    slices and structs has no error case. *)
Definition GoJson : EncodingJson := {|
  json_Marshal_ErrorWrapper := fun e => (encodeErrorWrapper e, None);
  json_Marshal_AccessResponse := fun r => (encodeAccessResponse r, None);
  json_Unmarshal_UserPassRequest := Unmarshal decode_UserPassRequest;
  json_Unmarshal_AccessResponse := Unmarshal decode_AccessResponse
|}.

(** An encoder whose every call fails, to exercise the error branches of
    [ReturnFailure] and [ServeHTTP]; decoding is as in [GoJson]. *)
Definition FailingMarshal : EncodingJson := {|
  json_Marshal_ErrorWrapper := fun _ => (EmptyString, Some "json: unsupported value");
  json_Marshal_AccessResponse := fun _ => (EmptyString, Some "json: unsupported value");
  json_Unmarshal_UserPassRequest := Unmarshal decode_UserPassRequest;
  json_Unmarshal_AccessResponse := Unmarshal decode_AccessResponse
|}.

(** ** The constants of userpass.go *)

(** Taken from the OpenStack quick start.  (With ' for each double quote.) *)
Definition exampleResponse : string := jq "{
    'access': {
        'serviceCatalog': [
            {
                'endpoints': [
                    {
                        'adminURL': 'https://nova-api.trystack.org:9774/v1.1/1', 
                        'internalURL': 'https://nova-api.trystack.org:9774/v1.1/1', 
                        'publicURL': 'https://nova-api.trystack.org:9774/v1.1/1', 
                        'region': 'RegionOne'
                    }
                ], 
                'name': 'nova', 
                'type': 'compute'
            }, 
            {
                'endpoints': [
                    {
                        'adminURL': 'https://GLANCE_API_IS_NOT_DISCLOSED/v1.1/1', 
                        'internalURL': 'https://GLANCE_API_IS_NOT_DISCLOSED/v1.1/1', 
                        'publicURL': 'https://GLANCE_API_IS_NOT_DISCLOSED/v1.1/1', 
                        'region': 'RegionOne'
                    }
                ], 
                'name': 'glance', 
                'type': 'image'
            }, 
            {
                'endpoints': [
                    {
                        'adminURL': 'https://nova-api.trystack.org:5443/v2.0', 
                        'internalURL': 'https://keystone.trystack.org:5000/v2.0', 
                        'publicURL': 'https://keystone.trystack.org:5000/v2.0', 
                        'region': 'RegionOne'
                    }
                ], 
                'name': 'keystone', 
                'type': 'identity'
            }
        ], 
        'token': {
            'expires': '2012-02-15T19:32:21', 
            'id': '5df9d45d-d198-4222-9b4c-7a280aa35666', 
            'tenant': {
                'id': '1', 
                'name': 'admin'
            }
        }, 
        'user': {
            'id': '14', 
            'name': 'annegentle', 
            'roles': [
                {
                    'id': '2', 
                    'name': 'Member', 
                    'tenantId': '1'
                }
            ]
        }
    }
}".

Definition internalError : string := jq "{
    'error': {
        'message': 'Internal failure',
	'code': 500,
	'title': Internal Server Error'
    }
}".

Definition notJSON : string :=
  "Expecting to find application/json in Content-Type header." +:+
  " The server could not comply with the request since it is either malformed" +:+
  " or otherwise incorrect. The client is assumed to be in error.".
Definition notAuthorized : string := "The request you have made requires authentication.".
Definition invalidUser : string := "Invalid user / password".

(** ** net/http *)

Definition StatusOK : Z := 200.
Definition StatusBadRequest : Z := 400.
Definition StatusUnauthorized : Z := 401.
Definition StatusInternalServerError : Z := 500.

(** [http.StatusText]: the empty string for a code that is not known. *)
Definition StatusText (code : Z) : string :=
  match code with
  | 100 => "Continue"
  | 101 => "Switching Protocols"
  | 200 => "OK"
  | 201 => "Created"
  | 202 => "Accepted"
  | 203 => "Non-Authoritative Information"
  | 204 => "No Content"
  | 205 => "Reset Content"
  | 206 => "Partial Content"
  | 300 => "Multiple Choices"
  | 301 => "Moved Permanently"
  | 302 => "Found"
  | 303 => "See Other"
  | 304 => "Not Modified"
  | 305 => "Use Proxy"
  | 307 => "Temporary Redirect"
  | 400 => "Bad Request"
  | 401 => "Unauthorized"
  | 402 => "Payment Required"
  | 403 => "Forbidden"
  | 404 => "Not Found"
  | 405 => "Method Not Allowed"
  | 406 => "Not Acceptable"
  | 407 => "Proxy Authentication Required"
  | 408 => "Request Timeout"
  | 409 => "Conflict"
  | 410 => "Gone"
  | 411 => "Length Required"
  | 412 => "Precondition Failed"
  | 413 => "Request Entity Too Large"
  | 414 => "Request URI Too Long"
  | 415 => "Unsupported Media Type"
  | 416 => "Requested Range Not Satisfiable"
  | 417 => "Expectation Failed"
  | 418 => "I'm a teapot"
  | 500 => "Internal Server Error"
  | 501 => "Not Implemented"
  | 502 => "Bad Gateway"
  | 503 => "Service Unavailable"
  | 504 => "Gateway Timeout"
  | 505 => "HTTP Version Not Supported"
  | _ => ""
  end%Z.

(** [http.Header] is a [map[string][]string].  The keys the handler uses,
    Content-Type and Content-Length, are in canonical form already, so the
    canonicalisation [Get] and [Set] apply to their key is the identity. *)
Abbreviation Header := (gmap string (list string)).

Definition Header_Get (h : Header) (key : string) : string :=
  match h !! key with
  | Some (v :: _) => v
  | _ => ""
  end.

Definition Header_Set (key value : string) (h : Header) : Header :=
  <[key := [value]]> h.

(** What a [ResponseWriter] shows of a response: the header map the handler
    edits, and, once the header is written, the status code and the header
    map as it then was, and the body written. *)
Record ResponseWriter : Type := {
  w_Header : Header;
  wroteHeader : bool;
  w_Code : Z;
  sentHeader : Header;
  w_Body : string
}.

Definition newResponseWriter : ResponseWriter :=
  {| w_Header := ∅; wroteHeader := false; w_Code := 0; sentHeader := ∅; w_Body := "" |}.

(** [w.Header().Set(key, value)] *)
Definition SetHeader (key value : string) (w : ResponseWriter) : ResponseWriter :=
  {| w_Header := Header_Set key value (w_Header w); wroteHeader := wroteHeader w;
     w_Code := w_Code w; sentHeader := sentHeader w; w_Body := w_Body w |}.

(** A second call of [WriteHeader] changes nothing. *)
Definition WriteHeader (code : Z) (w : ResponseWriter) : ResponseWriter :=
  if wroteHeader w then w
  else {| w_Header := w_Header w; wroteHeader := true; w_Code := code;
          sentHeader := w_Header w; w_Body := w_Body w |}.

(** [Write] first writes the header with status 200 if none was written. *)
Definition Write (b : string) (w : ResponseWriter) : ResponseWriter :=
  let w := WriteHeader StatusOK w in
  {| w_Header := w_Header w; wroteHeader := wroteHeader w; w_Code := w_Code w;
     sentHeader := sentHeader w; w_Body := w_Body w +:+ b |}.

(** A request: its header and what [ioutil.ReadAll(r.Body)] returns. *)
Record Request : Type := {
  r_Header : Header;
  r_Body : string * option error
}.

Definition ioutil_ReadAll (body : string * option error) : string * option error := body.

(** [fmt.Sprintf("%d", n)] *)
Definition Sprintf_d (n : Z) : string := NilZero.string_of_int (Z.to_int n).

Definition len (s : string) : Z := Z.of_nat (String.length s).

(** ** The state the handler works on *)

(** What a goroutine does to the shared [users] map and to locks, in program
    order.  [UserPass] has no lock, so userpass.go gives rise to [MapRead]
    and [MapWrite] only. *)
Inductive event : Type :=
| Acquire
| Release
| MapRead (key : string)
| MapWrite (key : string).

(** [users] is the field of the [*UserPass] receiver, [w] the response
    writer of the request being served, [events] the log of this goroutine. *)
Record State : Type := {
  users : gmap string UserInfo;
  w : ResponseWriter;
  events : list event
}.

(** [NewUserPass], for a request answered through [w0]. *)
Definition NewUserPass (w0 : ResponseWriter) : State :=
  {| users := ∅; w := w0; events := [] |}.

Definition M (A : Type) : Type := State -> A * State.

Definition ret {A : Type} (a : A) : M A := fun s => (a, s).

Definition bind {A B : Type} (m : M A) (f : A -> M B) : M B :=
  fun s => let r := m s in f (fst r) (snd r).

Notation "x <- m ;; k" := (bind m (fun x => k))
  (at level 100, m at next level, right associativity).
Notation "m ;; k" := (bind m (fun _ => k))
  (at level 100, right associativity).

Definition on_w (f : ResponseWriter -> ResponseWriter) : M unit :=
  fun s => (tt, {| users := users s; w := f (w s); events := events s |}).

(** [v, ok := u.users[key]] *)
Definition users_load (key : string) : M (option UserInfo) :=
  fun s => (users s !! key,
            {| users := users s; w := w s; events := (events s ++ [MapRead key])%list |}).

(** [u.users[key] = v] *)
Definition users_store (key : string) (v : UserInfo) : M unit :=
  fun s => (tt, {| users := <[key := v]> (users s); w := w s;
                   events := (events s ++ [MapWrite key])%list |}).

(** The response writer of the state is replaced: the next request. *)
Definition with_writer (w0 : ResponseWriter) (s : State) : State :=
  {| users := users s; w := w0; events := events s |}.

(** ** userpass.go *)

Definition hex_byte (b : ascii) : string :=
  String (hex_digit (code b / 16)) (String (hex_digit (code b mod 16)) EmptyString).

(** Modelled from the spec: [randomHexToken] is defined outside userpass.go.
    The spec's TokenIssuer "returns a fixed-length hexadecimal string drawn
    from an unpredictable source", "16 bytes → 32 hex characters".  The
    source is the argument: [rnd i] is the i-th byte it delivers. *)
Definition randomHexToken (rnd : nat -> ascii) : string :=
  String.concat EmptyString (map (fun i => hex_byte (rnd i)) (seq 0 16)).

Section UserPass.

Context {J : EncodingJson}.

Definition AddUser (rnd : nat -> ascii) (user secret : string) : M string :=
  let token := randomHexToken rnd in
  users_store user {| secret := secret; token := token |} ;;
  ret token.

Definition ReturnFailure (status : Z) (message : string) : M unit :=
  let e := {| Error := {| Message := message;
                          Code := status;
                          Title := StatusText status |} |} in
  match json_Marshal_ErrorWrapper e with
  | (content, Some err) =>
      on_w (SetHeader "Content-Length" (Sprintf_d (len internalError))) ;;
      on_w (WriteHeader StatusInternalServerError) ;;
      on_w (Write internalError)
  | (content, None) =>
      on_w (SetHeader "Content-Length" (Sprintf_d (len content))) ;;
      on_w (WriteHeader status) ;;
      on_w (Write content)
  end.

(** Every branch of the Go function ends in [return]; the [panic] after the
    last [if] is not reached. *)
Definition ServeHTTP (r : Request) : M unit :=
  let req := zero_UserPassRequest in
  on_w (SetHeader "Content-Type" "application/json") ;;
  if negb (String.eqb (Header_Get (r_Header r) "Content-Type") "application/json") then
    ReturnFailure StatusBadRequest notJSON
  else
    match ioutil_ReadAll (r_Body r) with
    | (content, Some err) => on_w (WriteHeader StatusBadRequest)
    | (content, None) =>
        match json_Unmarshal_UserPassRequest content req with
        | (req, Some err) => ReturnFailure StatusBadRequest notJSON
        | (req, None) =>
            userInfo <- users_load (Username (PasswordCredentials (Auth req))) ;;
            match userInfo with
            | None => ReturnFailure StatusUnauthorized notAuthorized
            | Some userInfo =>
                if negb (String.eqb (secret userInfo)
                                    (Password (PasswordCredentials (Auth req)))) then
                  ReturnFailure StatusUnauthorized invalidUser
                else
                  let res := zero_AccessResponse in
                  match json_Unmarshal_AccessResponse exampleResponse res with
                  | (res, Some err) => ReturnFailure StatusInternalServerError err
                  | (res, None) =>
                      let res := {| Access := set_Token (set_Token_Id (token userInfo)
                                                           (Token (Access res)))
                                                        (Access res) |} in
                      match json_Marshal_AccessResponse res with
                      | (content, Some err) => ReturnFailure StatusInternalServerError err
                      | (content, None) =>
                          on_w (WriteHeader StatusOK) ;;
                          on_w (Write content)
                      end
                  end
            end
        end
    end.

End UserPass.

(** A request with the given Content-Type and body. *)
Definition post (content_type body : string) : Request :=
  {| r_Header := Header_Set "Content-Type" content_type ∅; r_Body := (body, None) |}.

(** The response of [ServeHTTP] to [r], written through a new response
    writer, with the users [us]. *)
Definition respond {J : EncodingJson} (us : gmap string UserInfo) (r : Request) : ResponseWriter :=
  w (snd (ServeHTTP r {| users := us; w := newResponseWriter; events := [] |})).

(** Reading a response body: the value at a path of keys. *)
Definition json_get (key : string) (v : json) : option json :=
  match v with
  | JObject members =>
      match find (fun m => String.eqb (fst m) key) members with
      | Some m => Some (snd m)
      | None => None
      end
  | _ => None
  end.

Fixpoint json_path (path : list string) (v : json) : option json :=
  match path with
  | [] => Some v
  | key :: path' =>
      match json_get key v with
      | Some v' => json_path path' v'
      | None => None
      end
  end.

Definition body_at (path : list string) (body : string) : option json :=
  match parse_json body with
  | Some v => json_path path v
  | None => None
  end.

(** ** Notions used in the statements *)

(** The document [ServeHTTP] starts from: [exampleResponse] decoded into a
    zero [AccessResponse]. *)
Definition template : AccessResponse :=
  fst (Unmarshal decode_AccessResponse exampleResponse zero_AccessResponse).

(** [res.Access.Token.Id = id] *)
Definition with_Token_Id (id : string) (res : AccessResponse) : AccessResponse :=
  {| Access := set_Token (set_Token_Id id (Token (Access res))) (Access res) |}.

(** The error body [ReturnFailure] encodes. *)
Definition failure (status : Z) (message : string) : ErrorWrapper :=
  {| Error := {| Message := message; Code := status; Title := StatusText status |} |}.

(** Bytes the encoder copies and the decoder reads back as they are:
    printable ASCII other than the double quote, the backslash and the three
    characters escaped for HTML. *)
Definition plain_char (c : ascii) : bool :=
  in_range 32 126 c
  && negb (Ascii.eqb c dq || Ascii.eqb c backslash
           || Ascii.eqb c "<"%char || Ascii.eqb c ">"%char || Ascii.eqb c "&"%char).

Fixpoint plain (s : string) : bool :=
  match s with
  | EmptyString => true
  | String c s' => plain_char c && plain s'
  end.

(** The encoding of [with_Token_Id id res] before and after the encoded
    [id]. *)
Definition encode_before_id (res : AccessResponse) : string :=
  "{" +:+ encodeString "access" +:+ ":" +:+ "{"
  +:+ encodeString "serviceCatalog" +:+ ":"
  +:+ encodeSlice encodeService (ServiceCatalog (Access res))
  +:+ "," +:+ encodeString "token" +:+ ":" +:+ "{"
  +:+ encodeString "expires" +:+ ":" +:+ encodeString (Token_Expires (Token (Access res)))
  +:+ "," +:+ encodeString "id" +:+ ":".

Definition encode_after_id (res : AccessResponse) : string :=
  "," +:+ encodeString "tenant" +:+ ":" +:+ encodeTenant (Token_Tenant (Token (Access res)))
  +:+ "}" +:+ "," +:+ encodeString "user" +:+ ":" +:+ encodeUserResponse (User (Access res))
  +:+ "}" +:+ "}".

(** The lexemes of [encode_before_id template], last first. *)
Definition prefix_lexemes : list lexeme := Eval vm_compute in
  match lex_run LIdle [] (encode_before_id template) with
  | Some (_, toks) => toks
  | None => []
  end.

(** [body_at], from a state of the scanner on. *)
Definition read_from (path : list string) (st : lstate) (toks : list lexeme) (s : string)
  : option json :=
  match lex_run st toks s with
  | Some (st', toks') =>
      match lex_end st' toks' with
      | Some ts =>
          match parse_tokens ts with
          | Some v => json_path path v
          | None => None
          end
      | None => None
      end
  | None => None
  end.

(** Following the spec's words, "the expected login-request shape
    {auth:{passwordCredentials:{username,password},tenantName}}": the body is
    a JSON object whose [auth] is an object whose [passwordCredentials] is an
    object with strings [username] and [password].  ([tenantName] is
    "optional, informational only".) *)
Definition has_login_shape (body : string) : bool :=
  match body_at ["auth"; "passwordCredentials"; "username"] body,
        body_at ["auth"; "passwordCredentials"; "password"] body with
  | Some (JString _), Some (JString _) => true
  | _, _ => false
  end.

(** Requests served one after the other by the same [*UserPass], each
    through a new response writer; the responses, in order. *)
Fixpoint serve_all {J : EncodingJson} (rs : list Request) (s : State)
  : list ResponseWriter * State :=
  match rs with
  | [] => ([], s)
  | r :: rs' =>
      let s1 := snd (ServeHTTP r (with_writer newResponseWriter s)) in
      let rest := serve_all rs' s1 in
      (w s1 :: fst rest, snd rest)
  end.

(** The events of a call that starts with the users [us] and an empty log. *)
Definition trace {A : Type} (m : M A) (us : gmap string UserInfo) : list event :=
  events (snd (m {| users := us; w := newResponseWriter; events := [] |})).

(** The accesses to the map in a log, each with whether the lock was held. *)
Fixpoint accesses (held : bool) (es : list event) : list (bool * event) :=
  match es with
  | [] => []
  | Acquire :: es' => accesses true es'
  | Release :: es' => accesses false es'
  | e :: es' => (held, e) :: accesses held es'
  end.

(** Mutual exclusion: every access to the map is made with the lock held. *)
Definition guarded (es : list event) : bool :=
  forallb fst (accesses false es).

Definition is_write (e : event) : bool :=
  match e with
  | MapWrite _ => true
  | _ => false
  end.

(** Two accesses of different goroutines to the one map conflict when one of
    them is a write, whatever the keys, and race unless both were made with
    the lock held. *)
Definition conflict (a b : bool * event) : bool :=
  (is_write (snd a) || is_write (snd b)) && negb (fst a && fst b).

Definition races (t1 t2 : list event) : bool :=
  existsb (fun a => existsb (conflict a) (accesses false t2)) (accesses false t1).

(** A well-formed login request carrying [user] and [password]: the
    Content-Type is application/json, the body is read without error and
    [json.Unmarshal] decodes it, without error, into a request with that
    user name and password. *)
Definition well_formed_login (r : Request) (user password : string) : Prop :=
  Header_Get (r_Header r) "Content-Type" = "application/json"
  /\ exists body req,
       r_Body r = (body, None)
       /\ Unmarshal decode_UserPassRequest body zero_UserPassRequest = (req, None)
       /\ Username (PasswordCredentials (Auth req)) = user
       /\ Password (PasswordCredentials (Auth req)) = password.

(** The response [ReturnFailure status message] leaves in a new response
    writer when encoding succeeds. *)
Definition failure_response (status : Z) (message : string) : ResponseWriter :=
  let content := encodeErrorWrapper (failure status message) in
  let h := Header_Set "Content-Length" (Sprintf_d (len content))
             (Header_Set "Content-Type" "application/json" ∅) in
  {| w_Header := h; wroteHeader := true; w_Code := status; sentHeader := h;
     w_Body := content |}.

(** The response to a successful login of a user whose token is [id]. *)
Definition success_response (id : string) : ResponseWriter :=
  let h := Header_Set "Content-Type" "application/json" ∅ in
  {| w_Header := h; wroteHeader := true; w_Code := StatusOK; sentHeader := h;
     w_Body := encodeAccessResponse (with_Token_Id id template) |}.

(** The request of the spec's concrete scenario, and a source of random
    bytes for the examples. *)
Definition alice_login : Request :=
  post "application/json"
    (jq "{'auth':{'passwordCredentials':{'username':'alice','password':'wonderland'}}}").

Definition sample_rnd (i : nat) : ascii := chr (N.of_nat (17 * i + 3)).

(** A request whose body cannot be read. *)
Definition unreadable : Request :=
  {| r_Header := Header_Set "Content-Type" "application/json" ∅;
     r_Body := (EmptyString, Some "unexpected EOF") |}.

(** The spec's scenario with the password "wrong". *)
Definition alice_wrong : Request :=
  post "application/json"
    (jq "{'auth':{'passwordCredentials':{'username':'alice','password':'wrong'}}}").

(** [internalError] with the quote that is missing before [Internal Server
    Error] put in. *)
Definition internalError_quoted : string := jq "{
    'error': {
        'message': 'Internal failure',
	'code': 500,
	'title': 'Internal Server Error'
    }
}".

(** ** Further notions *)

(** The integer a JSON number denotes, if it is an integer literal. *)
Definition json_int (v : json) : option Z :=
  match v with
  | JNumber lit => option_map Z.of_int (NilZero.int_of_string lit)
  | _ => None
  end.

(** The JSON tree of the error envelope. *)
Definition envelope_json (e : ErrorWrapper) : json :=
  JObject [("error",
            JObject [("message", JString (Message (Error e)));
                     ("code", JNumber (encodeInt (Code (Error e))));
                     ("title", JString (Title (Error e)))])].

(** The encoding of an [ErrorWrapper] up to its message, its code and its
    title. *)
Definition envelope_before_message : string :=
  "{" +:+ encodeString "error" +:+ ":" +:+ "{" +:+ encodeString "message" +:+ ":".
Definition envelope_before_code : string := encodeString "code" +:+ ":".
Definition envelope_before_title : string := encodeString "title" +:+ ":".

(** Calls made to one [*UserPass], one after the other: registrations by the
    test harness and requests served. *)
Inductive call : Type :=
| Register (rnd : nat -> ascii) (user pw : string)
| Login (r : Request).

Fixpoint run {J : EncodingJson} (cs : list call) (s : State) : State :=
  match cs with
  | [] => s
  | Register rnd user pw :: cs' => run cs' (snd (AddUser rnd user pw s))
  | Login r :: cs' => run cs' (snd (ServeHTTP r (with_writer newResponseWriter s)))
  end.

(** The record of the latest registration of [user] among [cs], [before] if
    there is none. *)
Fixpoint registered (cs : list call) (user : string) (before : option UserInfo)
  : option UserInfo :=
  match cs with
  | [] => before
  | Register rnd u pw :: cs' =>
      registered cs' user
        (if String.eqb u user then Some {| secret := pw; token := randomHexToken rnd |}
         else before)
  | Login _ :: cs' => registered cs' user before
  end.

(** Requests for the examples: alice's login with a Content-Type that has a
    parameter, with the members in another order and spelling and a tenant
    name, and without the [auth] object around the credentials. *)
Definition alice_charset : Request :=
  post "application/json; charset=utf-8"
    (jq "{'auth':{'passwordCredentials':{'username':'alice','password':'wonderland'}}}").

Definition alice_tenant : Request :=
  post "application/json"
    (jq "{'AUTH':{'tenantName':'admin','PasswordCredentials':{'password':'wonderland','extra':[1,2],'username':'alice'}}}").

Definition alice_flat : Request :=
  post "application/json" (jq "{'username':'alice','password':'wonderland'}").

Definition other_rnd (i : nat) : ascii := chr (N.of_nat (5 * i + 200)).

(** The response to a request whose body cannot be read. *)
Definition bare_bad_request : ResponseWriter :=
  {| w_Header := Header_Set "Content-Type" "application/json" ∅;
     wroteHeader := true; w_Code := StatusBadRequest;
     sentHeader := Header_Set "Content-Type" "application/json" ∅;
     w_Body := EmptyString |}.

(** Alice's login with a number for the tenant name. *)
Definition alice_tenant_number : Request :=
  post "application/json"
    (jq "{'auth':{'passwordCredentials':{'username':'alice','password':'wonderland'},'tenantName':5}}").

(** ** Notions for the encoder on arbitrary strings and for runs of calls *)

(** What the scanner accepts inside a string literal. *)
Definition high (c : ascii) : bool := (128 <=? code c)%N.

Fixpoint all_high (s : string) : bool :=
  match s with
  | EmptyString => true
  | String c s' => high c && all_high s'
  end.

(** [e] is taken by the scanner as part of a string literal. *)
Definition accepted (e : string) : Prop :=
  forall acc toks, lex_run (LStr acc) toks e = Some (LStr (acc +:+ e), toks).


(** The string the decoder reads from the encoding of [s]: [s] itself,
    except that ill-formed UTF-8 in it has become U+FFFD. *)
Definition read_back (s : string) : string := unquote (escape_go (String.length s) s).


(** Whether a call registers [user]. *)
Definition registers (user : string) (c : call) : bool :=
  match c with
  | Register _ u _ => String.eqb u user
  | Login _ => false
  end.

(** The requests served in a run of calls, each with its response. *)
Fixpoint run_log {J : EncodingJson} (cs : list call) (s : State)
  : list (Request * ResponseWriter) :=
  match cs with
  | [] => []
  | Register rnd user pw :: cs' => run_log cs' (snd (AddUser rnd user pw s))
  | Login r :: cs' =>
      let s1 := snd (ServeHTTP r (with_writer newResponseWriter s)) in
      (r, w s1) :: run_log cs' s1
  end.

(** The value [res] has after line 218, [exampleResponse] decoded into
    [AccessResponse], written out. *)
Definition exampleAccess : AccessResponse :=
  {| Access :=
       {| ServiceCatalog :=
            Some [{| Service_Name := "nova"; Service_Type := "compute";
                     Service_Endpoints :=
                       Some [{| AdminURL := "https://nova-api.trystack.org:9774/v1.1/1";
                                InternalURL := "https://nova-api.trystack.org:9774/v1.1/1";
                                PublicURL := "https://nova-api.trystack.org:9774/v1.1/1";
                                Region := "RegionOne" |}] |};
                  {| Service_Name := "glance"; Service_Type := "image";
                     Service_Endpoints :=
                       Some [{| AdminURL := "https://GLANCE_API_IS_NOT_DISCLOSED/v1.1/1";
                                InternalURL := "https://GLANCE_API_IS_NOT_DISCLOSED/v1.1/1";
                                PublicURL := "https://GLANCE_API_IS_NOT_DISCLOSED/v1.1/1";
                                Region := "RegionOne" |}] |};
                  {| Service_Name := "keystone"; Service_Type := "identity";
                     Service_Endpoints :=
                       Some [{| AdminURL := "https://nova-api.trystack.org:5443/v2.0";
                                InternalURL := "https://keystone.trystack.org:5000/v2.0";
                                PublicURL := "https://keystone.trystack.org:5000/v2.0";
                                Region := "RegionOne" |}] |}];
          Token := {| Token_Expires := "2012-02-15T19:32:21";
                      Token_Id := "5df9d45d-d198-4222-9b4c-7a280aa35666";
                      Token_Tenant := {| Tenant_Id := "1"; Tenant_Name := "admin" |} |};
          User := {| User_Id := "14"; User_Name := "annegentle";
                     User_Roles := Some [{| Role_Id := "2"; Role_Name := "Member";
                                            Role_TenantId := "1" |}] |} |} |}.

(** The bytes [json.Marshal] writes for that document, before and after the
    encoded token.  (With ' for each double quote.) *)
Definition success_body_before : string :=
  jq "{'access':{'serviceCatalog':[{'name':'nova','type':'compute','Endpoints':[{'adminURL':'https://nova-api.trystack.org:9774/v1.1/1','internalURL':'https://nova-api.trystack.org:9774/v1.1/1','publicURL':'https://nova-api.trystack.org:9774/v1.1/1','region':'RegionOne'}]},{'name':'glance','type':'image','Endpoints':[{'adminURL':'https://GLANCE_API_IS_NOT_DISCLOSED/v1.1/1','internalURL':'https://GLANCE_API_IS_NOT_DISCLOSED/v1.1/1','publicURL':'https://GLANCE_API_IS_NOT_DISCLOSED/v1.1/1','region':'RegionOne'}]},{'name':'keystone','type':'identity','Endpoints':[{'adminURL':'https://nova-api.trystack.org:5443/v2.0','internalURL':'https://keystone.trystack.org:5000/v2.0','publicURL':'https://keystone.trystack.org:5000/v2.0','region':'RegionOne'}]}],'token':{'expires':'2012-02-15T19:32:21','id':".

Definition success_body_after : string :=
  jq ",'tenant':{'id':'1','name':'admin'}},'user':{'id':'14','name':'annegentle','roles':[{'id':'2','name':'Member','tenantId':'1'}]}}}".

(** A run for the examples: alice logs in, bob is registered, alice logs in
    again. *)
Definition alice_bob_alice : list call :=
  [Login alice_login; Register other_rnd "bob" "builder"; Login alice_login].

(** * Properties *)

(** ** Strings *)

Lemma append_cons (c : ascii) (a b : string) : String c a +:+ b = String c (a +:+ b).
Proof. reflexivity. Qed.

Lemma append_assoc (a b c : string) : (a +:+ b) +:+ c = a +:+ (b +:+ c).
Proof. induction a as [|x a IH]; [reflexivity|]. rewrite !append_cons. now rewrite IH. Qed.

Lemma append_nil_r (a : string) : a +:+ EmptyString = a.
Proof. induction a as [|x a IH]; [reflexivity|]. rewrite append_cons. now rewrite IH. Qed.

Lemma snoc_append (a b : string) (c : ascii) : snoc a c +:+ b = a +:+ String c b.
Proof. unfold snoc. now rewrite append_assoc. Qed.

(** ** Plain strings pass the encoder and the scanner unchanged *)

Lemma plain_char_ascii (c : ascii) : plain_char c = true -> (code c <? 128)%N = true.
Proof.
  unfold plain_char, in_range. intros H.
  apply andb_prop in H as [H _]. apply andb_prop in H as [_ H].
  apply N.leb_le in H. apply N.ltb_lt. lia.
Qed.

Lemma plain_char_escape (c : ascii) :
  plain_char c = true -> escape_ascii c = String c EmptyString.
Proof.
  destruct c as [[] [] [] [] [] [] [] []]; vm_compute; congruence.
Qed.

Lemma plain_char_lex (c : ascii) (acc : string) (toks : list lexeme) :
  plain_char c = true -> lex_step (LStr acc) toks c = Some (LStr (snoc acc c), toks).
Proof.
  intros H. unfold lex_step.
  destruct c as [[] [] [] [] [] [] [] []]; vm_compute in H; try discriminate H; reflexivity.
Qed.

Lemma escape_go_plain (s : string) (fuel : nat) :
  plain s = true -> (String.length s <= fuel)%nat -> escape_go fuel s = s.
Proof.
  revert fuel. induction s as [|c s IH]; intros fuel Hp Hf.
  - destruct fuel; reflexivity.
  - cbn in Hp. apply andb_prop in Hp as [Hc Hs].
    destruct fuel as [|fuel]; [cbn in Hf; lia|].
    cbn [escape_go]. rewrite (plain_char_ascii c Hc), (plain_char_escape c Hc).
    rewrite IH; [reflexivity|assumption|cbn in Hf; lia].
Qed.

Lemma encodeString_plain (s : string) :
  plain s = true -> encodeString s = String dq (s +:+ String dq EmptyString).
Proof.
  intros H. unfold encodeString. rewrite escape_go_plain; [reflexivity|assumption|lia].
Qed.

Lemma unquote_go_plain (s : string) (fuel : nat) :
  plain s = true -> (String.length s <= fuel)%nat -> unquote_go fuel s = s.
Proof.
  revert fuel. induction s as [|c s IH]; intros fuel Hp Hf.
  - destruct fuel; reflexivity.
  - cbn in Hp. apply andb_prop in Hp as [Hc Hs].
    destruct fuel as [|fuel]; [cbn in Hf; lia|].
    cbn [unquote_go].
    assert (Hb : Ascii.eqb c backslash = false).
    { destruct c as [[] [] [] [] [] [] [] []]; vm_compute in Hc; try discriminate Hc; reflexivity. }
    rewrite Hb, (plain_char_ascii c Hc).
    rewrite IH; [reflexivity|assumption|cbn in Hf; lia].
Qed.

Lemma unquote_plain (s : string) : plain s = true -> unquote s = s.
Proof. intros H. apply unquote_go_plain; [assumption|lia]. Qed.

Lemma lex_run_app (s1 s2 : string) (st : lstate) (toks : list lexeme) :
  lex_run st toks (s1 +:+ s2) =
  match lex_run st toks s1 with
  | Some (st', toks') => lex_run st' toks' s2
  | None => None
  end.
Proof.
  revert st toks. induction s1 as [|c s1 IH]; intros st toks; [reflexivity|].
  rewrite append_cons. cbn [lex_run].
  destruct (lex_step st toks c) as [[st' toks']|]; [apply IH|reflexivity].
Qed.

Lemma lex_run_plain (s rest acc : string) (toks : list lexeme) :
  plain s = true ->
  lex_run (LStr acc) toks (s +:+ rest) = lex_run (LStr (acc +:+ s)) toks rest.
Proof.
  revert acc. induction s as [|c s IH]; intros acc Hp.
  - now rewrite append_nil_r.
  - cbn in Hp. apply andb_prop in Hp as [Hc Hs].
    rewrite append_cons. cbn [lex_run]. rewrite (plain_char_lex c acc toks Hc).
    rewrite IH by assumption. now rewrite snoc_append.
Qed.

(** A string literal with plain content is one lexeme. *)
Lemma lex_run_literal (s rest : string) (toks : list lexeme) :
  plain s = true ->
  lex_run LIdle toks (String dq (s +:+ String dq rest)) =
  lex_run LIdle (TString s :: toks) rest.
Proof.
  intros Hp. cbn [lex_run]. change (lex_step LIdle toks dq) with (Some (LStr EmptyString, toks)).
  cbn iota. rewrite lex_run_plain by assumption.
  change (EmptyString +:+ s) with s. cbn [lex_run].
  change (lex_step (LStr s) toks dq) with (Some (LIdle, TString (unquote s) :: toks)).
  cbn iota. now rewrite unquote_plain.
Qed.

(** ** Tokens are plain *)

Lemma hex_byte_plain (b : ascii) : plain (hex_byte b) = true.
Proof. destruct b as [[] [] [] [] [] [] [] []]; reflexivity. Qed.

Lemma plain_app (a b : string) : plain a = true -> plain b = true -> plain (a +:+ b) = true.
Proof.
  intros Ha Hb. induction a as [|c a IH]; [exact Hb|].
  cbn in Ha |- *. apply andb_prop in Ha as [Hc Ha].
  rewrite append_cons. cbn. rewrite Hc. now apply IH.
Qed.

Lemma concat_plain (l : list string) :
  Forall (fun s => plain s = true) l -> plain (String.concat EmptyString l) = true.
Proof.
  induction 1 as [|s l Hs Hl IH]; [reflexivity|].
  destruct l as [|s' l']; [exact Hs|].
  cbn [String.concat]. apply plain_app; [assumption|].
  apply plain_app; [reflexivity|exact IH].
Qed.

Lemma randomHexToken_plain (rnd : nat -> ascii) : plain (randomHexToken rnd) = true.
Proof.
  unfold randomHexToken. apply concat_plain.
  apply List.Forall_forall. intros s Hs. apply List.in_map_iff in Hs as [i [<- _]].
  apply hex_byte_plain.
Qed.

Lemma randomHexToken_length (rnd : nat -> ascii) : String.length (randomHexToken rnd) = 32%nat.
Proof. reflexivity. Qed.

(** ** The fuel of the string functions suffices

    [unquote] and [encodeString] start with the length of the string as
    fuel; more fuel gives the same result, so nothing is cut short. *)

Lemma drop_length (n : nat) (s : string) :
  String.length (drop_bytes n s) = (String.length s - n)%nat.
Proof.
  revert s. induction n as [|n IH]; intros s; [cbn; lia|].
  destruct s as [|c s]; [reflexivity|]. cbn [drop_bytes String.length]. rewrite IH. lia.
Qed.

Lemma utf8_len_pos (s : string) (n : nat) : utf8_len s = Some n -> (1 <= n)%nat.
Proof.
  unfold utf8_len. intros H.
  repeat match type of H with
  | context [match ?x with _ => _ end] => destruct x
  end; inversion H; lia.
Qed.

Lemma getu4_length (s rest : string) (r : N) :
  getu4 s = Some (r, rest) -> String.length s = (4 + String.length rest)%nat.
Proof.
  unfold getu4. intros H.
  repeat match type of H with
  | context [match ?x with _ => _ end] => destruct x
  end; inversion H; reflexivity.
Qed.

Lemma escape_go_fuel (f1 f2 : nat) (s : string) :
  (String.length s <= f1)%nat -> (String.length s <= f2)%nat ->
  escape_go f1 s = escape_go f2 s.
Proof.
  revert f2 s. induction f1 as [|f1 IH]; intros f2 s H1 H2.
  - destruct s; [destruct f2; reflexivity|cbn in H1; lia].
  - destruct s as [|c rest]; [destruct f2; reflexivity|].
    destruct f2 as [|f2]; [cbn in H2; lia|].
    cbn [String.length] in H1, H2. cbn [escape_go].
    destruct (code c <? 128)%N.
    + f_equal. apply IH; lia.
    + destruct (utf8_len (String c rest)) as [n|] eqn:Hn.
      * apply utf8_len_pos in Hn.
        assert (Hd : forall f, (String.length rest <= f)%nat ->
                  (String.length (drop_bytes n (String c rest)) <= f)%nat).
        { intros f Hf. rewrite drop_length. cbn [String.length]. lia. }
        repeat match goal with
        | |- context [if ?b then _ else _] => destruct b
        end; f_equal; apply IH; apply Hd; lia.
      * f_equal. apply IH; lia.
Qed.

Lemma unquote_go_fuel (f1 f2 : nat) (s : string) :
  (String.length s <= f1)%nat -> (String.length s <= f2)%nat ->
  unquote_go f1 s = unquote_go f2 s.
Proof.
  revert f2 s. induction f1 as [|f1 IH]; intros f2 s H1 H2.
  - destruct s; [destruct f2; reflexivity|cbn in H1; lia].
  - destruct s as [|c rest]; [destruct f2; reflexivity|].
    destruct f2 as [|f2]; [cbn in H2; lia|].
    cbn [String.length] in H1, H2. cbn [unquote_go].
    destruct (Ascii.eqb c backslash).
    + destruct rest as [|e rest']; [reflexivity|]. cbn [String.length] in H1, H2.
      destruct (Ascii.eqb e "u"%char).
      * destruct (getu4 rest') as [[rr rest'']|] eqn:Hg; [|reflexivity].
        apply getu4_length in Hg.
        assert (Hs : EncodeRune rr +:+ unquote_go f1 rest''
                     = EncodeRune rr +:+ unquote_go f2 rest'').
        { f_equal. apply IH; lia. }
        destruct (is_surrogate rr); [|exact Hs].
        destruct rest'' as [|c1 [|c2 rest3]]; try exact Hs.
        destruct (Ascii.eqb c1 backslash && Ascii.eqb c2 "u"%char); [|exact Hs].
        destruct (getu4 rest3) as [[rr1 rest4]|] eqn:Hg'; [|exact Hs].
        apply getu4_length in Hg'. cbn [String.length] in Hg.
        destruct (utf16_DecodeRune rr rr1 =? RuneError)%N; [exact Hs|].
        f_equal. apply IH; lia.
      * f_equal. apply IH; lia.
    + destruct (code c <? 128)%N.
      * f_equal. apply IH; lia.
      * destruct (utf8_len (String c rest)) as [n|] eqn:Hn.
        -- apply utf8_len_pos in Hn. f_equal.
           apply IH; rewrite drop_length; cbn [String.length]; lia.
        -- f_equal. apply IH; lia.
Qed.

(** ** The encoded success document *)

Lemma template_decodes :
  snd (Unmarshal decode_AccessResponse exampleResponse zero_AccessResponse) = None.
Proof. vm_compute. reflexivity. Qed.

Lemma encode_split (res : AccessResponse) (id : string) :
  encodeAccessResponse (with_Token_Id id res)
  = encode_before_id res +:+ encodeString id +:+ encode_after_id res.
Proof.
  unfold encodeAccessResponse, with_Token_Id, encodeAccess, encodeTokenResponse,
    set_Token, set_Token_Id, encodeStruct, encodeMember, encode_before_id, encode_after_id.
  cbn [Access Token Token_Id Token_Expires Token_Tenant ServiceCatalog User join map fst snd].
  rewrite !append_assoc. reflexivity.
Qed.

Lemma body_at_read_from (path : list string) (s : string) :
  body_at path s = read_from path LIdle [] s.
Proof.
  unfold body_at, parse_json, lex, read_from.
  destruct (lex_run LIdle [] s) as [[st toks]|]; [|reflexivity].
  destruct (lex_end st toks) as [ts|]; reflexivity.
Qed.

Lemma read_from_app (path : list string) (st : lstate) (toks : list lexeme) (s1 s2 : string) :
  read_from path st toks (s1 +:+ s2) =
  match lex_run st toks s1 with
  | Some (st', toks') => read_from path st' toks' s2
  | None => None
  end.
Proof.
  unfold read_from. rewrite lex_run_app.
  destruct (lex_run st toks s1) as [[st' toks']|]; reflexivity.
Qed.

Lemma read_from_literal (path : list string) (toks : list lexeme) (s rest : string) :
  plain s = true ->
  read_from path LIdle toks (String dq (s +:+ String dq rest)) =
  read_from path LIdle (TString s :: toks) rest.
Proof. intros Hp. unfold read_from. now rewrite lex_run_literal. Qed.

Lemma lex_prefix :
  lex_run LIdle [] (encode_before_id template) = Some (LIdle, prefix_lexemes).
Proof. vm_compute. reflexivity. Qed.

Lemma read_suffix (id : string) :
  read_from ["access"; "token"; "id"] LIdle (TString id :: prefix_lexemes)
    (encode_after_id template) = Some (JString id).
Proof. vm_compute. reflexivity. Qed.

(** The token id can be read back from the encoded document when it is plain. *)
Lemma success_body_token (id : string) :
  plain id = true ->
  body_at ["access"; "token"; "id"] (encodeAccessResponse (with_Token_Id id template))
  = Some (JString id).
Proof.
  intros Hp. rewrite encode_split, (encodeString_plain id Hp), body_at_read_from.
  rewrite read_from_app, lex_prefix.
  rewrite append_cons, append_assoc, append_cons.
  rewrite (read_from_literal _ _ id _ Hp).
  apply read_suffix.
Qed.

(** ** The handler with the modelled encoding/json *)

Lemma ReturnFailure_new (status : Z) (message : string) (s : State) :
  w s = SetHeader "Content-Type" "application/json" newResponseWriter ->
  w (snd (ReturnFailure (J := GoJson) status message s)) = failure_response status message.
Proof.
  intros Hw. unfold ReturnFailure, bind, on_w.
  cbn [json_Marshal_ErrorWrapper GoJson fst snd w]. rewrite Hw. reflexivity.
Qed.

Lemma ReturnFailure_users {J : EncodingJson} (status : Z) (message : string) (s : State) :
  users (snd (ReturnFailure status message s)) = users s
  /\ events (snd (ReturnFailure status message s)) = events s.
Proof.
  unfold ReturnFailure, bind, on_w.
  destruct (json_Marshal_ErrorWrapper _) as [content [err|]]; split; reflexivity.
Qed.

Lemma template_unmarshal :
  json_Unmarshal_AccessResponse (EncodingJson := GoJson) exampleResponse zero_AccessResponse
  = (template, None).
Proof. vm_compute. reflexivity. Qed.

Lemma respond_login (us : gmap string UserInfo) (r : Request) (user password : string) :
  well_formed_login r user password ->
  respond (J := GoJson) us r =
  match us !! user with
  | None => failure_response StatusUnauthorized notAuthorized
  | Some info =>
      if String.eqb (secret info) password then success_response (token info)
      else failure_response StatusUnauthorized invalidUser
  end.
Proof.
  intros [Hct (body & req & Hbody & Hreq & Hu & Hp)].
  unfold respond, ServeHTTP, bind, on_w, users_load, ioutil_ReadAll.
  cbn [fst snd users w events].
  rewrite Hct, Hbody, String.eqb_refl. cbn [negb].
  change (json_Unmarshal_UserPassRequest body zero_UserPassRequest)
    with (Unmarshal decode_UserPassRequest body zero_UserPassRequest).
  rewrite Hreq, Hu, Hp. cbn [fst snd users w events].
  destruct (us !! user) as [info|].
  - destruct (String.eqb (secret info) password); cbn [negb].
    + rewrite template_unmarshal. reflexivity.
    + now apply ReturnFailure_new.
  - now apply ReturnFailure_new.
Qed.

Lemma respond_cases (us : gmap string UserInfo) (r : Request) :
  (exists user password, well_formed_login r user password)
  \/ w_Code (respond (J := GoJson) us r) = StatusBadRequest.
Proof.
  unfold respond, ServeHTTP, bind, on_w, users_load, ioutil_ReadAll, well_formed_login.
  cbn [fst snd users w events].
  destruct (String.eqb (Header_Get (r_Header r) "Content-Type") "application/json") eqn:Hct;
    cbn [negb].
  2:{ right. now rewrite ReturnFailure_new. }
  apply String.eqb_eq in Hct.
  destruct (r_Body r) as [body [err|]] eqn:Hbody.
  { right. reflexivity. }
  change (json_Unmarshal_UserPassRequest body zero_UserPassRequest)
    with (Unmarshal decode_UserPassRequest body zero_UserPassRequest).
  destruct (Unmarshal decode_UserPassRequest body zero_UserPassRequest) as [req [err|]] eqn:Hreq.
  { right. now rewrite ReturnFailure_new. }
  left. exists (Username (PasswordCredentials (Auth req))),
    (Password (PasswordCredentials (Auth req))).
  split; [assumption|]. exists body, req. auto.
Qed.

Lemma invalid_json_unmarshal {T : Type} (d : dec T) (body : string) (v : T) :
  json_Valid body = false -> Unmarshal d body v = (v, Some syntax_error).
Proof.
  unfold json_Valid, Unmarshal. destruct (parse_json body); [discriminate|reflexivity].
Qed.

Lemma respond_malformed (us : gmap string UserInfo) (r : Request) (body : string) :
  Header_Get (r_Header r) "Content-Type" = "application/json" ->
  r_Body r = (body, None) ->
  snd (Unmarshal decode_UserPassRequest body zero_UserPassRequest) <> None ->
  respond (J := GoJson) us r = failure_response StatusBadRequest notJSON.
Proof.
  intros Hct Hbody Herr.
  unfold respond, ServeHTTP, bind, on_w, users_load, ioutil_ReadAll.
  cbn [fst snd users w events].
  rewrite Hct, Hbody, String.eqb_refl. cbn [negb].
  change (json_Unmarshal_UserPassRequest body zero_UserPassRequest)
    with (Unmarshal decode_UserPassRequest body zero_UserPassRequest).
  destruct (Unmarshal decode_UserPassRequest body zero_UserPassRequest) as [req [err|]].
  - now apply ReturnFailure_new.
  - now contradict Herr.
Qed.

(** ** The handler with any encoding/json *)

Section AnyJson.

Context {J : EncodingJson}.

Lemma ServeHTTP_users (r : Request) (s : State) :
  users (snd (ServeHTTP r s)) = users s.
Proof.
  unfold ServeHTTP, bind, on_w, users_load, ioutil_ReadAll.
  cbn [fst snd users w events].
  repeat match goal with
  | |- context [ReturnFailure ?a ?b ?s] =>
      lazymatch goal with
      | |- users (snd (ReturnFailure a b s)) = _ =>
          rewrite (proj1 (ReturnFailure_users a b s)); reflexivity
      end
  | |- context [if ?b then _ else _] => destruct b
  | |- context [match ?x with Some _ => _ | None => _ end] => destruct x
  | |- context [let (_, _) := ?x in _] => destruct x
  | |- _ => reflexivity
  end.
Qed.

Lemma WriteHeader_new (code : Z) (w0 : ResponseWriter) :
  wroteHeader w0 = false ->
  WriteHeader code w0 =
  {| w_Header := w_Header w0; wroteHeader := true; w_Code := code;
     sentHeader := w_Header w0; w_Body := w_Body w0 |}.
Proof. intros H. unfold WriteHeader. now rewrite H. Qed.

Lemma Write_after_WriteHeader (code : Z) (b : string) (w0 : ResponseWriter) :
  wroteHeader w0 = false ->
  Write b (WriteHeader code w0) =
  {| w_Header := w_Header w0; wroteHeader := true; w_Code := code;
     sentHeader := w_Header w0; w_Body := w_Body w0 +:+ b |}.
Proof. intros H. rewrite (WriteHeader_new code w0 H). reflexivity. Qed.

Lemma ReturnFailure_writer (status : Z) (message : string) (s : State) :
  wroteHeader (w s) = false ->
  w (snd (ReturnFailure status message s)) =
  match json_Marshal_ErrorWrapper (failure status message) with
  | (_, Some _) =>
      let h := Header_Set "Content-Length" (Sprintf_d (len internalError)) (w_Header (w s)) in
      {| w_Header := h; wroteHeader := true; w_Code := StatusInternalServerError;
         sentHeader := h; w_Body := w_Body (w s) +:+ internalError |}
  | (content, None) =>
      let h := Header_Set "Content-Length" (Sprintf_d (len content)) (w_Header (w s)) in
      {| w_Header := h; wroteHeader := true; w_Code := status;
         sentHeader := h; w_Body := w_Body (w s) +:+ content |}
  end.
Proof.
  intros H. unfold ReturnFailure, bind, on_w. fold (failure status message).
  destruct (json_Marshal_ErrorWrapper (failure status message)) as [content [err|]];
    cbn [fst snd w]; now rewrite Write_after_WriteHeader.
Qed.

Lemma ReturnFailure_content_type (status : Z) (message : string) (s : State) (v : list string) :
  wroteHeader (w s) = false ->
  w_Header (w s) !! "Content-Type" = Some v ->
  wroteHeader (w (snd (ReturnFailure status message s))) = true
  /\ sentHeader (w (snd (ReturnFailure status message s))) !! "Content-Type" = Some v.
Proof.
  intros H Hv. rewrite (ReturnFailure_writer status message s H).
  destruct (json_Marshal_ErrorWrapper (failure status message)) as [content [err|]];
    cbn [wroteHeader sentHeader]; unfold Header_Set;
    (split; [reflexivity|]); now rewrite lookup_insert_ne.
Qed.

Lemma ReturnFailure_w_only (status : Z) (message : string) (s s' : State) :
  w s = w s' ->
  w (snd (ReturnFailure status message s)) = w (snd (ReturnFailure status message s')).
Proof.
  intros H. unfold ReturnFailure, bind, on_w.
  destruct (json_Marshal_ErrorWrapper _) as [content [err|]]; cbn [fst snd w]; now rewrite H.
Qed.

Lemma ServeHTTP_events_irrelevant (r : Request) (s : State) (es : list event) :
  w (snd (ServeHTTP r s))
  = w (snd (ServeHTTP r {| users := users s; w := w s; events := es |})).
Proof.
  unfold ServeHTTP, bind, on_w, users_load, ioutil_ReadAll.
  cbn [fst snd users w events].
  repeat (cbn [fst snd users w events];
    match goal with
    | |- w (snd (ReturnFailure _ _ _)) = w (snd (ReturnFailure _ _ _)) =>
        apply ReturnFailure_w_only; reflexivity
    | |- context [if ?b then _ else _] => destruct b
    | |- context [match ?x with Some _ => _ | None => _ end] => destruct x
    | |- context [let (_, _) := ?x in _] => destruct x
    | |- _ => reflexivity
    end).
Qed.

Lemma ServeHTTP_trace (r : Request) (s : State) :
  events (snd (ServeHTTP r s)) = events s
  \/ exists key, events (snd (ServeHTTP r s)) = (events s ++ [MapRead key])%list.
Proof.
  unfold ServeHTTP, bind, on_w, users_load, ioutil_ReadAll.
  cbn [fst snd users w events].
  repeat match goal with
  | |- context [events (snd (ReturnFailure ?a ?b ?s))] =>
      rewrite (proj2 (ReturnFailure_users a b s)); cbn [events]
  | |- context [if ?b then _ else _] => destruct b
  | |- context [match ?x with Some _ => _ | None => _ end] => destruct x
  | |- context [let (_, _) := ?x in _] => destruct x
  end; cbn [fst snd users w events]; eauto.
Qed.

Lemma ServeHTTP_header (r : Request) (s : State) :
  wroteHeader (w s) = false ->
  wroteHeader (w (snd (ServeHTTP r s))) = true
  /\ sentHeader (w (snd (ServeHTTP r s))) !! "Content-Type" = Some ["application/json"].
Proof.
  intros H.
  assert (Hh : forall h : Header,
             Header_Set "Content-Type" "application/json" h !! "Content-Type"
             = Some ["application/json"]).
  { intros h. unfold Header_Set. apply lookup_insert_eq. }
  unfold ServeHTTP, bind, on_w, users_load, ioutil_ReadAll.
  cbn [fst snd users w events].
  repeat match goal with
  | |- context [ReturnFailure ?a ?b ?s] =>
      apply ReturnFailure_content_type; cbn [w SetHeader wroteHeader w_Header];
      [exact H|apply Hh]
  | |- context [if ?b then _ else _] => destruct b
  | |- context [match ?x with Some _ => _ | None => _ end] => destruct x
  | |- context [let (_, _) := ?x in _] => destruct x
  end;
  cbn [fst snd w];
  rewrite ?Write_after_WriteHeader, ?WriteHeader_new by exact H;
  cbn [wroteHeader sentHeader SetHeader w_Header]; (split; [reflexivity|apply Hh]).
Qed.

End AnyJson.

Lemma respond_ok (us : gmap string UserInfo) (r : Request) :
  w_Code (respond (J := GoJson) us r) = StatusOK ->
  exists user password info,
    well_formed_login r user password
    /\ us !! user = Some info
    /\ secret info = password
    /\ respond (J := GoJson) us r = success_response (token info).
Proof.
  intros Hok. destruct (respond_cases us r) as [(user & password & Hr)|H400].
  - pose proof (respond_login us r user password Hr) as Hresp.
    destruct (us !! user) as [info|] eqn:Hu.
    + destruct (String.eqb (secret info) password) eqn:Hs.
      * apply String.eqb_eq in Hs. exists user, password, info. auto.
      * rewrite Hresp in Hok. discriminate Hok.
    + rewrite Hresp in Hok. discriminate Hok.
  - rewrite H400 in Hok. discriminate Hok.
Qed.

Lemma serve_one (r : Request) (s : State) :
  w (snd (ServeHTTP (J := GoJson) r (with_writer newResponseWriter s)))
  = respond (J := GoJson) (users s) r.
Proof.
  unfold respond.
  rewrite (ServeHTTP_events_irrelevant r (with_writer newResponseWriter s) []).
  reflexivity.
Qed.

Lemma with_Token_Id_frame (id : string) (res : AccessResponse) :
  Token_Id (Token (Access (with_Token_Id id res))) = id
  /\ ServiceCatalog (Access (with_Token_Id id res)) = ServiceCatalog (Access res)
  /\ User (Access (with_Token_Id id res)) = User (Access res)
  /\ Token_Expires (Token (Access (with_Token_Id id res))) = Token_Expires (Token (Access res))
  /\ Token_Tenant (Token (Access (with_Token_Id id res))) = Token_Tenant (Token (Access res)).
Proof. repeat split. Qed.

(** ** The fixture and sample runs *)

Example template_token :
  Token (Access template)
  = {| Token_Expires := "2012-02-15T19:32:21";
       Token_Id := "5df9d45d-d198-4222-9b4c-7a280aa35666";
       Token_Tenant := {| Tenant_Id := "1"; Tenant_Name := "admin" |} |}.
Proof. vm_compute. reflexivity. Qed.

Example template_user :
  User (Access template)
  = {| User_Id := "14"; User_Name := "annegentle";
       User_Roles := Some [{| Role_Id := "2"; Role_Name := "Member"; Role_TenantId := "1" |}] |}.
Proof. vm_compute. reflexivity. Qed.

Example template_catalog :
  option_map (map (fun s => (Service_Name s, Service_Type s, option_map (map Region) (Service_Endpoints s))))
    (ServiceCatalog (Access template))
  = Some [("nova", "compute", Some ["RegionOne"]);
          ("glance", "image", Some ["RegionOne"]);
          ("keystone", "identity", Some ["RegionOne"])].
Proof. vm_compute. reflexivity. Qed.

Example exampleResponse_valid : json_Valid exampleResponse = true.
Proof. vm_compute. reflexivity. Qed.

Example internalError_quoted_valid : json_Valid internalError_quoted = true.
Proof. vm_compute. reflexivity. Qed.

Example alice_login_well_formed : well_formed_login alice_login "alice" "wonderland".
Proof.
  split; [reflexivity|].
  eexists _, _. split; [reflexivity|]. split; [vm_compute; reflexivity|]. split; reflexivity.
Defined.

Example alice_wrong_well_formed : well_formed_login alice_wrong "alice" "wrong".
Proof.
  split; [reflexivity|].
  eexists _, _. split; [reflexivity|]. split; [vm_compute; reflexivity|]. split; reflexivity.
Defined.

(** A body whose [auth] is a number is rejected by the decoder; an empty
    object is decoded, into empty strings. *)
Example auth_number_rejected :
  snd (Unmarshal decode_UserPassRequest (jq "{'auth':5}") zero_UserPassRequest)
  = Some (type_error (JNumber "5") "struct").
Proof. vm_compute. reflexivity. Qed.

Example empty_object_decoded :
  Unmarshal decode_UserPassRequest "{}" zero_UserPassRequest = (zero_UserPassRequest, None).
Proof. vm_compute. reflexivity. Qed.

(** ** The claims *)

(** C2, as stated, fails: the body [{}] is JSON and does not have the login
    shape, yet the request goes on to the lookup and is answered with 401. *)
Lemma empty_object_body_not_400 :
  let r := post "application/json" "{}" in
  Header_Get (r_Header r) "Content-Type" = "application/json"
  /\ r_Body r = ("{}", None)
  /\ json_Valid "{}" = true
  /\ has_login_shape "{}" = false
  /\ w_Code (respond (J := GoJson) ∅ r) = StatusUnauthorized
  /\ w_Code (respond (J := GoJson) ∅ r) <> StatusBadRequest.
Proof.
  vm_compute. split; [reflexivity|]. split; [reflexivity|]. split; [reflexivity|].
  split; [reflexivity|]. split; [reflexivity|discriminate].
Qed.

(** C2, amended.  A request whose Content-Type is application/json and whose
    body is read without error and is not JSON, or is JSON that
    [json.Unmarshal] reports an error for, is answered with status 400 and
    the content-type error message. *)
Theorem undecodable_body_bad_request
    (us : gmap string UserInfo) (r : Request) (body : string) :
  Header_Get (r_Header r) "Content-Type" = "application/json" ->
  r_Body r = (body, None) ->
  json_Valid body = false
  \/ snd (Unmarshal decode_UserPassRequest body zero_UserPassRequest) <> None ->
  let resp := respond (J := GoJson) us r in
  w_Code resp = StatusBadRequest
  /\ w_Body resp = encodeErrorWrapper (failure StatusBadRequest notJSON)
  /\ body_at ["error"; "message"] (w_Body resp) = Some (JString notJSON).
Proof.
  intros Hct Hbody Hbad resp. subst resp.
  rewrite (respond_malformed us r body Hct Hbody).
  - split; [reflexivity|]. split; [reflexivity|]. vm_compute. reflexivity.
  - destruct Hbad as [Hv|Hd]; [|exact Hd].
    rewrite (invalid_json_unmarshal _ _ _ Hv). discriminate.
Qed.

Lemma undecodable_body_bad_request_witness :
  let r := post "application/json" (jq "{'auth':5}") in
  let resp := respond (J := GoJson) ∅ r in
  w_Code resp = StatusBadRequest
  /\ w_Body resp = encodeErrorWrapper (failure StatusBadRequest notJSON)
  /\ body_at ["error"; "message"] (w_Body resp) = Some (JString notJSON).
Proof.
  apply (undecodable_body_bad_request ∅ (post "application/json" (jq "{'auth':5}"))
           (jq "{'auth':5}")).
  - reflexivity.
  - reflexivity.
  - right. vm_compute. discriminate.
Defined.

(** C3.  After [AddUser user pw], a well-formed login request carrying
    [user] and [pw] is answered with status 200 and a body whose
    access.token.id is the token [AddUser] returned. *)
Theorem login_after_AddUser
    (rnd : nat -> ascii) (user pw : string) (s : State) (r : Request) :
  well_formed_login r user pw ->
  let reg := AddUser rnd user pw s in
  let resp := respond (J := GoJson) (users (snd reg)) r in
  w_Code resp = StatusOK
  /\ body_at ["access"; "token"; "id"] (w_Body resp) = Some (JString (fst reg)).
Proof.
  intros Hr reg resp. subst reg resp.
  rewrite (respond_login _ r user pw Hr).
  unfold AddUser, bind, users_store, ret. cbn [fst snd users].
  rewrite lookup_insert_eq. cbn [secret token]. rewrite String.eqb_refl.
  split; [reflexivity|]. cbn [w_Body success_response].
  apply success_body_token, randomHexToken_plain.
Qed.

Lemma login_after_AddUser_witness :
  let reg := AddUser sample_rnd "alice" "wonderland" (NewUserPass newResponseWriter) in
  let resp := respond (J := GoJson) (users (snd reg)) alice_login in
  w_Code resp = StatusOK
  /\ body_at ["access"; "token"; "id"] (w_Body resp) = Some (JString (fst reg)).
Proof.
  exact (login_after_AddUser sample_rnd "alice" "wonderland" (NewUserPass newResponseWriter)
           alice_login alice_login_well_formed).
Defined.

(** C5.  A well-formed login request whose user name is not in the store is
    answered with status 401 and the message "The request you have made
    requires authentication.". *)
Theorem unknown_user_unauthorized
    (us : gmap string UserInfo) (r : Request) (user password : string) :
  well_formed_login r user password ->
  us !! user = None ->
  let resp := respond (J := GoJson) us r in
  w_Code resp = StatusUnauthorized
  /\ w_Body resp = encodeErrorWrapper (failure StatusUnauthorized notAuthorized)
  /\ body_at ["error"; "message"] (w_Body resp)
     = Some (JString "The request you have made requires authentication.").
Proof.
  intros Hr Hu resp. subst resp. rewrite (respond_login us r user password Hr), Hu.
  split; [reflexivity|]. split; [reflexivity|]. vm_compute. reflexivity.
Qed.

Lemma unknown_user_unauthorized_witness :
  let resp := respond (J := GoJson) ∅ alice_login in
  w_Code resp = StatusUnauthorized
  /\ w_Body resp = encodeErrorWrapper (failure StatusUnauthorized notAuthorized)
  /\ body_at ["error"; "message"] (w_Body resp)
     = Some (JString "The request you have made requires authentication.").
Proof.
  apply (unknown_user_unauthorized ∅ alice_login "alice" "wonderland").
  - exact alice_login_well_formed.
  - reflexivity.
Defined.

(** C6.  A well-formed login request whose user name is registered and whose
    password differs from the stored secret is answered with status 401 and
    the message "Invalid user / password". *)
Theorem wrong_password_unauthorized
    (us : gmap string UserInfo) (r : Request) (user password : string) (info : UserInfo) :
  well_formed_login r user password ->
  us !! user = Some info ->
  secret info <> password ->
  let resp := respond (J := GoJson) us r in
  w_Code resp = StatusUnauthorized
  /\ w_Body resp = encodeErrorWrapper (failure StatusUnauthorized invalidUser)
  /\ body_at ["error"; "message"] (w_Body resp) = Some (JString "Invalid user / password").
Proof.
  intros Hr Hu Hne resp. subst resp. rewrite (respond_login us r user password Hr), Hu.
  apply String.eqb_neq in Hne. rewrite Hne.
  split; [reflexivity|]. split; [reflexivity|]. vm_compute. reflexivity.
Qed.

Lemma wrong_password_unauthorized_witness :
  let us := users (snd (AddUser sample_rnd "alice" "wonderland" (NewUserPass newResponseWriter))) in
  let resp := respond (J := GoJson) us alice_wrong in
  w_Code resp = StatusUnauthorized
  /\ w_Body resp = encodeErrorWrapper (failure StatusUnauthorized invalidUser)
  /\ body_at ["error"; "message"] (w_Body resp) = Some (JString "Invalid user / password").
Proof.
  apply (wrong_password_unauthorized _ alice_wrong "alice" "wrong"
           {| secret := "wonderland"; token := randomHexToken sample_rnd |}).
  - exact alice_wrong_well_formed.
  - vm_compute. reflexivity.
  - vm_compute. discriminate.
Defined.

(** C8, as stated, fails: userpass.go takes no lock.  The write of [AddUser]
    and the read of [ServeHTTP] are made without one, and the two, run by
    different goroutines, race. *)
Lemma registration_races_login :
  let t1 := trace (AddUser sample_rnd "alice" "wonderland") ∅ in
  let t2 := trace (ServeHTTP (J := GoJson) alice_login) ∅ in
  t1 = [MapWrite "alice"] /\ t2 = [MapRead "alice"]
  /\ guarded t1 = false /\ guarded t2 = false /\ races t1 t2 = true.
Proof. vm_compute. repeat (split; [reflexivity|]). reflexivity. Qed.

(** C8, amended.  The store is accessed without mutual exclusion: [AddUser]
    makes one write of the map and [ServeHTTP] at most one read and no write,
    never with a lock held.  Logins served concurrently therefore do not
    race with each other. *)
Theorem store_accesses_unguarded {J : EncodingJson}
    (rnd : nat -> ascii) (user pw : string) (r r' : Request) (us : gmap string UserInfo) :
  trace (AddUser rnd user pw) us = [MapWrite user]
  /\ (trace (ServeHTTP r) us = [] \/ exists key, trace (ServeHTTP r) us = [MapRead key])
  /\ races (trace (ServeHTTP r) us) (trace (ServeHTTP r') us) = false.
Proof.
  assert (Ht : forall q, trace (ServeHTTP q) us = []
                         \/ exists key, trace (ServeHTTP q) us = [MapRead key]).
  { intros q. unfold trace.
    destruct (ServeHTTP_trace q {| users := us; w := newResponseWriter; events := [] |})
      as [H|[key H]]; [left|right; exists key]; exact H. }
  split; [reflexivity|]. split; [apply Ht|].
  destruct (Ht r) as [->|[k ->]]; [reflexivity|].
  destruct (Ht r') as [->|[k' ->]]; reflexivity.
Qed.

(** C9.  When encoding the error envelope fails, [ReturnFailure] writes
    status 500 and [internalError], whatever status it was called with; when
    encoding succeeds, it writes the status it was called with and the
    encoded envelope. *)
Theorem ReturnFailure_status {J : EncodingJson} (status : Z) (message : string) (s : State) :
  wroteHeader (w s) = false ->
  let resp := w (snd (ReturnFailure status message s)) in
  match json_Marshal_ErrorWrapper (failure status message) with
  | (_, Some _) =>
      w_Code resp = StatusInternalServerError
      /\ w_Body resp = w_Body (w s) +:+ internalError
  | (content, None) =>
      w_Code resp = status
      /\ w_Body resp = w_Body (w s) +:+ content
  end.
Proof.
  intros H resp. subst resp. rewrite (ReturnFailure_writer status message s H).
  destruct (json_Marshal_ErrorWrapper (failure status message)) as [content [err|]];
    split; reflexivity.
Qed.

Lemma ReturnFailure_status_witness :
  let resp := w (snd (ReturnFailure (J := FailingMarshal) StatusUnauthorized invalidUser
                        (NewUserPass newResponseWriter))) in
  w_Code resp = StatusInternalServerError /\ w_Body resp = EmptyString +:+ internalError.
Proof.
  exact (ReturnFailure_status (J := FailingMarshal) StatusUnauthorized invalidUser
           (NewUserPass newResponseWriter) eq_refl).
Defined.

(** C10.  Whatever the request, the header [ServeHTTP] sends has
    Content-Type: application/json; also when the body cannot be read. *)
Theorem ServeHTTP_content_type {J : EncodingJson} (r : Request) (s : State) :
  wroteHeader (w s) = false ->
  let resp := w (snd (ServeHTTP r s)) in
  wroteHeader resp = true
  /\ sentHeader resp !! "Content-Type" = Some ["application/json"].
Proof. intros H. apply ServeHTTP_header, H. Qed.

Lemma ServeHTTP_content_type_witness :
  let resp := w (snd (ServeHTTP (J := GoJson) unreadable (NewUserPass newResponseWriter))) in
  w_Code resp = StatusBadRequest /\ w_Body resp = EmptyString
  /\ wroteHeader resp = true
  /\ sentHeader resp !! "Content-Type" = Some ["application/json"].
Proof.
  split; [reflexivity|]. split; [reflexivity|].
  exact (ServeHTTP_content_type (J := GoJson) unreadable (NewUserPass newResponseWriter) eq_refl).
Defined.

(** ** Integers written by the encoder are read by the scanner *)

Lemma append_nil_l (s : string) : EmptyString +:+ s = s.
Proof. reflexivity. Qed.

Lemma lex_digits (d : Decimal.uint) (acc rest : string) (toks : list lexeme) :
  lex_run (LNum NInt acc) toks (NilEmpty.string_of_uint d +:+ rest)
  = lex_run (LNum NInt (acc +:+ NilEmpty.string_of_uint d)) toks rest.
Proof.
  revert acc. induction d as [|d IH|d IH|d IH|d IH|d IH|d IH|d IH|d IH|d IH|d IH]; intros acc;
    cbn [NilEmpty.string_of_uint];
    [now rewrite append_nil_r|..];
    rewrite append_cons; cbn [lex_run];
    match goal with
    | |- context [lex_step (LNum NInt acc) toks ?c] =>
        change (lex_step (LNum NInt acc) toks c) with (Some (LNum NInt (snoc acc c), toks))
    end;
    cbn iota; rewrite IH, snoc_append; reflexivity.
Qed.

Lemma to_uint_head (p : positive) :
  match Pos.to_uint p with
  | Decimal.Nil | Decimal.D0 _ => False
  | _ => True
  end.
Proof.
  pose proof (DecimalPos.Unsigned.to_of (Pos.to_uint p)) as Hn.
  rewrite DecimalPos.Unsigned.of_to in Hn. cbn [N.to_uint] in Hn.
  pose proof (DecimalPos.Unsigned.to_uint_nonzero p) as Hz.
  pose proof (DecimalPos.Unsigned.to_uint_nonnil p) as Hnil.
  destruct (Pos.to_uint p) as [|t|t|t|t|t|t|t|t|t|t]; try exact I; [congruence|].
  rewrite DecimalFacts.unorm_D0 in Hn.
  destruct (Decimal.uint_eq_dec t Decimal.Nil) as [->|Ht]; [now apply Hz|].
  pose proof (DecimalFacts.nb_digits_unorm t Ht) as Hle.
  rewrite <- Hn in Hle. cbn [Decimal.nb_digits] in Hle. lia.
Qed.

Lemma lex_uint (p : positive) (st : lstate) (sign rest : string) (toks : list lexeme) :
  (st = LIdle /\ sign = EmptyString) \/ (st = LNum NMinus "-" /\ sign = "-") ->
  lex_run st toks (NilEmpty.string_of_uint (Pos.to_uint p) +:+ String "," rest)
  = lex_run LIdle (TComma :: TNumber (sign +:+ NilEmpty.string_of_uint (Pos.to_uint p)) :: toks)
      rest.
Proof.
  intros Hst. pose proof (to_uint_head p) as Hh.
  destruct (Pos.to_uint p) as [|t|t|t|t|t|t|t|t|t|t]; try contradiction;
    cbn [NilEmpty.string_of_uint]; rewrite append_cons; cbn [lex_run];
    destruct Hst as [[-> ->]|[-> ->]];
    match goal with
    | |- context [lex_step ?s toks ?c] =>
        let v := eval vm_compute in (lex_step s [] c) in
        match v with
        | Some (?s', _) => change (lex_step s toks c) with (Some (s', toks))
        end
    end;
    cbn iota; rewrite lex_digits; cbn [lex_run];
    match goal with
    | |- context [lex_step (LNum NInt ?a) toks ","%char] =>
        change (lex_step (LNum NInt a) toks ","%char)
          with (Some (LIdle, TComma :: TNumber a :: toks))
    end; reflexivity.
Qed.

Lemma encodeInt_nonneg (p : positive) :
  encodeInt (Z.pos p) = NilEmpty.string_of_uint (Pos.to_uint p).
Proof.
  unfold encodeInt. cbn [Z.to_int NilZero.string_of_int]. unfold NilZero.string_of_uint.
  pose proof (DecimalPos.Unsigned.to_uint_nonnil p).
  destruct (Pos.to_uint p); [contradiction|reflexivity..].
Qed.

Lemma encodeInt_neg (p : positive) :
  encodeInt (Z.neg p) = String "-" (NilEmpty.string_of_uint (Pos.to_uint p)).
Proof.
  unfold encodeInt. cbn [Z.to_int NilZero.string_of_int]. unfold NilZero.string_of_uint.
  pose proof (DecimalPos.Unsigned.to_uint_nonnil p).
  destruct (Pos.to_uint p); [contradiction|reflexivity..].
Qed.

(** An integer followed by a comma is one number lexeme. *)
Lemma lex_run_int (z : Z) (rest : string) (toks : list lexeme) :
  lex_run LIdle toks (encodeInt z +:+ String "," rest)
  = lex_run LIdle (TComma :: TNumber (encodeInt z) :: toks) rest.
Proof.
  destruct z as [|p|p].
  - reflexivity.
  - rewrite encodeInt_nonneg. rewrite (lex_uint p LIdle EmptyString); [reflexivity|now left].
  - rewrite encodeInt_neg, append_cons. cbn [lex_run].
    change (lex_step LIdle toks "-"%char) with (Some (LNum NMinus "-", toks)). cbn iota.
    rewrite (lex_uint p (LNum NMinus "-") "-"); [reflexivity|now right].
Qed.

Lemma read_from_int (path : list string) (z : Z) (rest : string) (toks : list lexeme) :
  read_from path LIdle toks (encodeInt z +:+ String "," rest)
  = read_from path LIdle (TComma :: TNumber (encodeInt z) :: toks) rest.
Proof. unfold read_from. now rewrite lex_run_int. Qed.

Lemma json_int_encodeInt (z : Z) : json_int (JNumber (encodeInt z)) = Some z.
Proof.
  unfold json_int, encodeInt. rewrite NilZero.isi.
  - cbn [option_map]. now rewrite DecimalZ.of_to.
  - destruct z as [|p|p]; cbn [Z.to_int]; try discriminate.
    intros [= H]. now apply (DecimalPos.Unsigned.to_uint_nonnil p).
  - destruct z as [|p|p]; cbn [Z.to_int]; try discriminate.
    intros [= H]. now apply (DecimalPos.Unsigned.to_uint_nonnil p).
Qed.

Lemma StatusText_plain (status : Z) : plain (StatusText status) = true.
Proof.
  unfold StatusText.
  repeat match goal with
  | |- context [match ?x with _ => _ end] => destruct x
  end; reflexivity.
Qed.

(** ** The error envelope is read back *)

Lemma parse_json_read_from (s : string) : parse_json s = read_from [] LIdle [] s.
Proof.
  unfold parse_json, lex, read_from.
  destruct (lex_run LIdle [] s) as [[st toks]|]; [|reflexivity].
  destruct (lex_end st toks) as [ts|]; [|reflexivity].
  destruct (parse_tokens ts); reflexivity.
Qed.

Lemma encodeErrorWrapper_split (e : ErrorWrapper) :
  encodeErrorWrapper e
  = envelope_before_message +:+ encodeString (Message (Error e)) +:+ ","
    +:+ envelope_before_code +:+ encodeInt (Code (Error e)) +:+ ","
    +:+ envelope_before_title +:+ encodeString (Title (Error e)) +:+ "}" +:+ "}".
Proof.
  unfold encodeErrorWrapper, encodeErrorResponse, encodeStruct, encodeMember,
    envelope_before_message, envelope_before_code, envelope_before_title.
  cbn [join map fst snd]. rewrite !append_assoc. reflexivity.
Qed.

Lemma lex_before_message :
  lex_run LIdle [] envelope_before_message
  = Some (LIdle, [TColon; TString "message"; TLBrace; TColon; TString "error"; TLBrace]).
Proof. vm_compute. reflexivity. Qed.

Lemma lex_before_code (toks : list lexeme) :
  lex_run LIdle toks envelope_before_code = Some (LIdle, TColon :: TString "code" :: toks).
Proof. vm_compute. reflexivity. Qed.

Lemma lex_before_title (toks : list lexeme) :
  lex_run LIdle toks envelope_before_title = Some (LIdle, TColon :: TString "title" :: toks).
Proof. vm_compute. reflexivity. Qed.

Lemma read_from_comma (path : list string) (toks : list lexeme) (rest : string) :
  read_from path LIdle toks ("," +:+ rest) = read_from path LIdle (TComma :: toks) rest.
Proof. reflexivity. Qed.

(** The encoded envelope is JSON, and parses to the envelope, when the
    message and the title are plain. *)
Lemma parse_envelope (e : ErrorWrapper) :
  plain (Message (Error e)) = true ->
  plain (Title (Error e)) = true ->
  parse_json (encodeErrorWrapper e) = Some (envelope_json e).
Proof.
  intros Hm Ht.
  rewrite parse_json_read_from, encodeErrorWrapper_split.
  rewrite read_from_app, lex_before_message.
  rewrite (encodeString_plain _ Hm), append_cons, append_assoc, append_cons.
  rewrite (read_from_literal _ _ _ _ Hm), append_nil_l, read_from_comma.
  rewrite read_from_app, lex_before_code.
  change ("," +:+ envelope_before_title +:+ encodeString (Title (Error e)) +:+ "}" +:+ "}")
    with (String ","%char (envelope_before_title +:+ encodeString (Title (Error e)) +:+ "}" +:+ "}")).
  rewrite read_from_int, read_from_app, lex_before_title.
  rewrite (encodeString_plain _ Ht), append_cons, append_assoc, append_cons.
  rewrite (read_from_literal _ _ _ _ Ht), append_nil_l.
  unfold envelope_json. generalize (Message (Error e)), (encodeInt (Code (Error e))), (Title (Error e)).
  intros m c t. vm_compute. reflexivity.
Qed.

(** ** Further properties of userpass.go *)

Example alice_tenant_well_formed : well_formed_login alice_tenant "alice" "wonderland".
Proof.
  split; [reflexivity|].
  eexists _, _. split; [reflexivity|]. split; [vm_compute; reflexivity|]. split; reflexivity.
Defined.

(** X1.  A request whose Content-Type is not exactly application/json is
    answered with status 400 and the content-type message, whatever its body
    and whoever is registered. *)
Theorem wrong_content_type_bad_request (us : gmap string UserInfo) (r : Request) :
  Header_Get (r_Header r) "Content-Type" <> "application/json" ->
  respond (J := GoJson) us r = failure_response StatusBadRequest notJSON.
Proof.
  intros Hct. apply String.eqb_neq in Hct.
  unfold respond, ServeHTTP, bind, on_w. cbn [fst snd users w events].
  rewrite Hct. cbn [negb]. now apply ReturnFailure_new.
Qed.

Lemma wrong_content_type_bad_request_witness :
  let us := users (snd (AddUser sample_rnd "alice" "wonderland" (NewUserPass newResponseWriter))) in
  respond (J := GoJson) us alice_charset = failure_response StatusBadRequest notJSON.
Proof.
  apply wrong_content_type_bad_request. vm_compute. discriminate.
Defined.

(** X2.  When the body cannot be read, the response is a bare 400: no body,
    no Content-Length, only the Content-Type set at the start; this holds with
    any encoding/json. *)
Theorem unreadable_body_bare_400 {J : EncodingJson}
    (us : gmap string UserInfo) (r : Request) (content : string) (err : error) :
  Header_Get (r_Header r) "Content-Type" = "application/json" ->
  r_Body r = (content, Some err) ->
  w_Code (respond us r) = StatusBadRequest
  /\ w_Body (respond us r) = EmptyString
  /\ sentHeader (respond us r) !! "Content-Length" = None
  /\ respond us r = bare_bad_request.
Proof.
  intros Hct Hbody.
  unfold respond, ServeHTTP, bind, on_w, ioutil_ReadAll. cbn [fst snd users w events].
  rewrite Hct, Hbody, String.eqb_refl. cbn [negb].
  split; [reflexivity|]. split; [reflexivity|]. split; reflexivity.
Qed.

Lemma unreadable_body_bare_400_witness :
  w_Code (respond (J := GoJson) ∅ unreadable) = StatusBadRequest
  /\ w_Body (respond (J := GoJson) ∅ unreadable) = EmptyString
  /\ sentHeader (respond (J := GoJson) ∅ unreadable) !! "Content-Length" = None
  /\ respond (J := GoJson) ∅ unreadable = bare_bad_request.
Proof.
  apply (unreadable_body_bare_400 (J := GoJson) ∅ unreadable EmptyString "unexpected EOF");
    reflexivity.
Defined.

(** X3.  With any encoding/json, the status of a response is one of 200,
    400, 401 and 500. *)
Theorem status_codes {J : EncodingJson} (us : gmap string UserInfo) (r : Request) :
  let code := w_Code (respond us r) in
  code = StatusOK \/ code = StatusBadRequest \/ code = StatusUnauthorized
  \/ code = StatusInternalServerError.
Proof.
  cbn zeta. unfold respond, ServeHTTP, bind, on_w, users_load, ioutil_ReadAll.
  repeat (cbn [fst snd users w events];
    match goal with
    | |- context [w (snd (ReturnFailure ?a ?b ?s))] =>
        rewrite (ReturnFailure_writer a b s eq_refl);
        destruct (json_Marshal_ErrorWrapper (failure a b)) as [? [?|]];
        cbn [w_Code]; auto 6
    | |- context [if ?b then _ else _] => destruct b
    | |- context [match ?x with Some _ => _ | None => _ end] => destruct x
    | |- context [let (_, _) := ?x in _] => destruct x
    end); cbn [w_Code WriteHeader Write SetHeader wroteHeader newResponseWriter]; auto 6.
Qed.

(** X4.  With the modelled encoding/json no request is answered with 500:
    the status is 200, 400 or 401. *)
Theorem never_internal_error (us : gmap string UserInfo) (r : Request) :
  let code := w_Code (respond (J := GoJson) us r) in
  code = StatusOK \/ code = StatusBadRequest \/ code = StatusUnauthorized.
Proof.
  destruct (respond_cases us r) as [(user & password & Hr)|H400]; [|auto].
  cbn zeta. rewrite (respond_login us r user password Hr).
  destruct (us !! user) as [info|]; [|auto].
  destruct (String.eqb (secret info) password); auto.
Qed.

(** X5.  The body [ReturnFailure] writes for a plain message is JSON that
    reads back as the envelope: error.message is the message, error.code the
    status, which is also the status of the response, and error.title the
    text [http.StatusText] has for it. *)
Theorem error_envelope_round_trip (status : Z) (message : string) (s : State) :
  plain message = true ->
  wroteHeader (w s) = false ->
  w_Body (w s) = EmptyString ->
  let resp := w (snd (ReturnFailure (J := GoJson) status message s)) in
  w_Code resp = status
  /\ body_at ["error"; "message"] (w_Body resp) = Some (JString message)
  /\ option_bind _ _ json_int (body_at ["error"; "code"] (w_Body resp)) = Some status
  /\ body_at ["error"; "title"] (w_Body resp) = Some (JString (StatusText status)).
Proof.
  intros Hp Hw Hb resp. subst resp.
  rewrite (ReturnFailure_writer status message s Hw).
  cbn [json_Marshal_ErrorWrapper GoJson w_Code w_Body]. rewrite Hb, append_nil_l.
  split; [reflexivity|].
  unfold body_at.
  rewrite (parse_envelope (failure status message) Hp (StatusText_plain status)).
  split; [reflexivity|]. split; [|reflexivity].
  cbn [envelope_json json_path json_get find fst snd String.eqb Ascii.eqb Bool.eqb
       option_bind failure Error Code].
  apply json_int_encodeInt.
Qed.

Lemma error_envelope_round_trip_witness :
  let resp := w (snd (ReturnFailure (J := GoJson) 404 "no such tenant" (NewUserPass newResponseWriter))) in
  w_Code resp = 404%Z
  /\ body_at ["error"; "message"] (w_Body resp) = Some (JString "no such tenant")
  /\ option_bind _ _ json_int (body_at ["error"; "code"] (w_Body resp)) = Some 404%Z
  /\ body_at ["error"; "title"] (w_Body resp) = Some (JString (StatusText 404)).
Proof.
  apply (error_envelope_round_trip 404 "no such tenant" (NewUserPass newResponseWriter));
    reflexivity.
Defined.

(** X6.  On both branches of [ReturnFailure] the Content-Length sent is the
    length of the body written, with any encoding/json. *)
Theorem ReturnFailure_content_length {J : EncodingJson}
    (status : Z) (message : string) (s : State) :
  wroteHeader (w s) = false ->
  w_Body (w s) = EmptyString ->
  let resp := w (snd (ReturnFailure status message s)) in
  sentHeader resp !! "Content-Length" = Some [Sprintf_d (len (w_Body resp))].
Proof.
  intros Hw Hb resp. subst resp. rewrite (ReturnFailure_writer status message s Hw).
  destruct (json_Marshal_ErrorWrapper (failure status message)) as [content [err|]];
    cbn [sentHeader w_Body]; rewrite Hb, append_nil_l; unfold Header_Set;
    apply lookup_insert_eq.
Qed.

Lemma ReturnFailure_content_length_witness :
  let resp := w (snd (ReturnFailure (J := FailingMarshal) StatusUnauthorized invalidUser
                        (NewUserPass newResponseWriter))) in
  sentHeader resp !! "Content-Length" = Some [Sprintf_d (len (w_Body resp))].
Proof.
  apply (ReturnFailure_content_length (J := FailingMarshal) StatusUnauthorized invalidUser
           (NewUserPass newResponseWriter)); reflexivity.
Defined.

(** X7.  A 200 response is sent without Content-Length: the success branch
    sets no header but the Content-Type. *)
Theorem success_without_content_length (us : gmap string UserInfo) (r : Request) :
  w_Code (respond (J := GoJson) us r) = StatusOK ->
  sentHeader (respond (J := GoJson) us r) = Header_Set "Content-Type" "application/json" ∅
  /\ sentHeader (respond (J := GoJson) us r) !! "Content-Length" = None.
Proof.
  intros Hok. destruct (respond_ok us r Hok) as (user & password & info & _ & _ & _ & ->).
  split; reflexivity.
Qed.

Lemma success_without_content_length_witness :
  let us := users (snd (AddUser sample_rnd "alice" "wonderland" (NewUserPass newResponseWriter))) in
  sentHeader (respond (J := GoJson) us alice_login) = Header_Set "Content-Type" "application/json" ∅
  /\ sentHeader (respond (J := GoJson) us alice_login) !! "Content-Length" = None.
Proof.
  apply (success_without_content_length _ alice_login). vm_compute. reflexivity.
Defined.

(** X8.  Registering a user again replaces its record: the new password logs
    in and gets the new token, the old password is refused. *)
Theorem reregistration_replaces
    (rnd1 rnd2 : nat -> ascii) (user pw1 pw2 : string) (s : State) (r1 r2 : Request) :
  well_formed_login r1 user pw1 ->
  well_formed_login r2 user pw2 ->
  pw1 <> pw2 ->
  let reg1 := AddUser rnd1 user pw1 s in
  let reg2 := AddUser rnd2 user pw2 (snd reg1) in
  respond (J := GoJson) (users (snd reg2)) r2 = success_response (fst reg2)
  /\ respond (J := GoJson) (users (snd reg2)) r1
     = failure_response StatusUnauthorized invalidUser.
Proof.
  intros H1 H2 Hne reg1 reg2. subst reg1 reg2.
  rewrite (respond_login _ r1 user pw1 H1), (respond_login _ r2 user pw2 H2).
  unfold AddUser, bind, users_store, ret. cbn [fst snd users].
  rewrite lookup_insert_eq. cbn [secret token]. rewrite String.eqb_refl.
  split; [reflexivity|].
  assert (Hs : String.eqb pw2 pw1 = false) by (apply String.eqb_neq; congruence).
  now rewrite Hs.
Qed.

Lemma reregistration_replaces_witness :
  let reg1 := AddUser sample_rnd "alice" "wrong" (NewUserPass newResponseWriter) in
  let reg2 := AddUser other_rnd "alice" "wonderland" (snd reg1) in
  respond (J := GoJson) (users (snd reg2)) alice_login = success_response (fst reg2)
  /\ respond (J := GoJson) (users (snd reg2)) alice_wrong
     = failure_response StatusUnauthorized invalidUser.
Proof.
  apply (reregistration_replaces sample_rnd other_rnd "alice" "wrong" "wonderland"
           (NewUserPass newResponseWriter) alice_wrong alice_login).
  - exact alice_wrong_well_formed.
  - exact alice_login_well_formed.
  - discriminate.
Defined.

(** X9.  Registering a user changes nothing for the logins of the others. *)
Theorem AddUser_other_users
    (rnd : nat -> ascii) (user pw name password : string) (s : State) (r : Request) :
  well_formed_login r name password ->
  name <> user ->
  respond (J := GoJson) (users (snd (AddUser rnd user pw s))) r
  = respond (J := GoJson) (users s) r.
Proof.
  intros Hr Hne. rewrite !(respond_login _ r name password Hr).
  unfold AddUser, bind, users_store, ret. cbn [fst snd users].
  rewrite lookup_insert_ne by congruence. reflexivity.
Qed.

Lemma AddUser_other_users_witness :
  let s := snd (AddUser sample_rnd "alice" "wonderland" (NewUserPass newResponseWriter)) in
  respond (J := GoJson) (users (snd (AddUser other_rnd "bob" "builder" s))) alice_login
  = respond (J := GoJson) (users s) alice_login.
Proof.
  apply (AddUser_other_users other_rnd "bob" "builder" "alice" "wonderland").
  - exact alice_login_well_formed.
  - discriminate.
Defined.

Lemma users_after_run {J : EncodingJson} (cs : list call) (user : string) (s : State) :
  users (run cs s) !! user = registered cs user (users s !! user).
Proof.
  revert s. induction cs as [|[rnd u pw|r] cs IH]; intros s; cbn [run registered].
  - reflexivity.
  - rewrite IH. unfold AddUser, bind, users_store, ret. cbn [fst snd users].
    destruct (String.eqb_spec u user) as [->|Hne].
    + now rewrite lookup_insert_eq.
    + now rewrite lookup_insert_ne.
  - rewrite IH, ServeHTTP_users. reflexivity.
Qed.

(** X10.  After any sequence of registrations and requests, with any
    encoding/json, the record of a user is that of its latest registration:
    requests in between change nothing, earlier registrations are
    forgotten, and nothing is ever deleted. *)
Theorem latest_registration_wins {J : EncodingJson}
    (cs : list call) (user : string) (s : State) :
  users (run cs s) !! user = registered cs user (users s !! user).
Proof. apply users_after_run. Qed.

(** X11.  A new [UserPass] authenticates nobody: with any encoding/json, no
    request gets a 200. *)
Theorem NewUserPass_rejects {J : EncodingJson} (r : Request) (w0 : ResponseWriter) :
  w_Code (respond (users (NewUserPass w0)) r) <> StatusOK.
Proof.
  cbn [NewUserPass users].
  unfold respond, ServeHTTP, bind, on_w, users_load, ioutil_ReadAll.
  repeat (cbn [fst snd users w events];
    match goal with
    | |- context [w (snd (ReturnFailure ?a ?b ?s))] =>
        rewrite (ReturnFailure_writer a b s eq_refl);
        destruct (json_Marshal_ErrorWrapper (failure a b)) as [? [?|]];
        cbn [w_Code]; discriminate
    | |- _ => progress rewrite lookup_empty
    | |- context [if ?b then _ else _] => destruct b
    | |- context [let (_, _) := ?x in _] => destruct x
    | |- context [match ?x with Some _ => _ | None => _ end] => destruct x
    end); cbn [w_Code WriteHeader wroteHeader SetHeader newResponseWriter]; discriminate.
Qed.

(** X12.  The [users] map is read exactly once, for the user name of the
    request, when the request is a well-formed login, and not at all
    otherwise: a request refused for its Content-Type or body never reaches
    the store. *)
Theorem store_read_only_when_well_formed (us : gmap string UserInfo) (r : Request) :
  (forall user password,
     well_formed_login r user password ->
     trace (ServeHTTP (J := GoJson) r) us = [MapRead user])
  /\ ((forall user password, ~ well_formed_login r user password) ->
      trace (ServeHTTP (J := GoJson) r) us = []).
Proof.
  unfold trace, ServeHTTP, bind, on_w, users_load, ioutil_ReadAll, well_formed_login.
  cbn [fst snd users w events]. split.
  - intros user password [Hct (body & req & Hbody & Hreq & Hu & Hp)].
    rewrite Hct, Hbody, String.eqb_refl. cbn [negb].
    change (json_Unmarshal_UserPassRequest body zero_UserPassRequest)
      with (Unmarshal decode_UserPassRequest body zero_UserPassRequest).
    rewrite Hreq, Hu, Hp. cbn [fst snd users w events].
    repeat (cbn [fst snd users w events];
      match goal with
      | |- context [events (snd (ReturnFailure ?a ?b ?s))] =>
          rewrite (proj2 (ReturnFailure_users a b s))
      | |- context [if ?b then _ else _] => destruct b
      | |- context [let (_, _) := ?x in _] => destruct x
      | |- context [match ?x with Some _ => _ | None => _ end] => destruct x
      end); reflexivity.
  - intros Hnot.
    destruct (String.eqb (Header_Get (r_Header r) "Content-Type") "application/json") eqn:Hct;
      cbn [negb].
    2:{ now rewrite (proj2 (ReturnFailure_users _ _ _)). }
    apply String.eqb_eq in Hct.
    destruct (r_Body r) as [body [err|]] eqn:Hbody; [reflexivity|].
    change (json_Unmarshal_UserPassRequest body zero_UserPassRequest)
      with (Unmarshal decode_UserPassRequest body zero_UserPassRequest).
    destruct (Unmarshal decode_UserPassRequest body zero_UserPassRequest) as [req [err|]] eqn:Hreq.
    { now rewrite (proj2 (ReturnFailure_users _ _ _)). }
    exfalso. apply (Hnot (Username (PasswordCredentials (Auth req)))
                         (Password (PasswordCredentials (Auth req)))).
    split; [exact Hct|]. exists body, req. auto.
Qed.

(** X13.  The response depends on the request only through the user name and
    the password decoded from it: the tenant name, unknown members, and the
    order and letter case of the keys make no difference. *)
Theorem response_depends_on_credentials
    (us : gmap string UserInfo) (r r' : Request) (user password : string) :
  well_formed_login r user password ->
  well_formed_login r' user password ->
  respond (J := GoJson) us r = respond (J := GoJson) us r'.
Proof.
  intros H H'. now rewrite (respond_login us r user password H),
                 (respond_login us r' user password H').
Qed.

Lemma response_depends_on_credentials_witness :
  let us := users (snd (AddUser sample_rnd "alice" "wonderland" (NewUserPass newResponseWriter))) in
  respond (J := GoJson) us alice_login = respond (J := GoJson) us alice_tenant.
Proof.
  apply (response_depends_on_credentials _ alice_login alice_tenant "alice" "wonderland").
  - exact alice_login_well_formed.
  - exact alice_tenant_well_formed.
Defined.

Lemma decode_success_suffix (id : string) :
  match read_from [] LIdle (TString id :: prefix_lexemes) (encode_after_id template) with
  | Some j => decode_AccessResponse j zero_AccessResponse
  | None => (zero_AccessResponse, Some syntax_error)
  end = (with_Token_Id id template, None).
Proof. vm_compute. reflexivity. Qed.

Lemma unmarshal_success_body (id : string) :
  plain id = true ->
  Unmarshal decode_AccessResponse (encodeAccessResponse (with_Token_Id id template))
    zero_AccessResponse
  = (with_Token_Id id template, None).
Proof.
  intros Hp. unfold Unmarshal.
  rewrite parse_json_read_from, encode_split, (encodeString_plain id Hp).
  rewrite read_from_app, lex_prefix.
  rewrite append_cons, append_assoc, append_cons.
  rewrite (read_from_literal _ _ id _ Hp).
  apply decode_success_suffix.
Qed.

(** X14.  The body of the 200 response to a login after [AddUser] decodes,
    with the decoder of [AccessResponse], to the document that was encoded:
    the fixture with the token [AddUser] returned.  (The catalog's endpoints
    are written under the key Endpoints, the field having no tag, and read
    back from it.) *)
Theorem success_body_round_trip
    (rnd : nat -> ascii) (user pw : string) (s : State) (r : Request) :
  well_formed_login r user pw ->
  let reg := AddUser rnd user pw s in
  let resp := respond (J := GoJson) (users (snd reg)) r in
  Unmarshal decode_AccessResponse (w_Body resp) zero_AccessResponse
  = (with_Token_Id (fst reg) template, None).
Proof.
  intros Hr reg resp. subst reg resp.
  rewrite (respond_login _ r user pw Hr).
  unfold AddUser, bind, users_store, ret. cbn [fst snd users].
  rewrite lookup_insert_eq. cbn [secret token]. rewrite String.eqb_refl.
  cbn [w_Body success_response].
  apply unmarshal_success_body, randomHexToken_plain.
Qed.

Lemma success_body_round_trip_witness :
  let reg := AddUser sample_rnd "alice" "wonderland" (NewUserPass newResponseWriter) in
  let resp := respond (J := GoJson) (users (snd reg)) alice_login in
  Unmarshal decode_AccessResponse (w_Body resp) zero_AccessResponse
  = (with_Token_Id (fst reg) template, None).
Proof.
  exact (success_body_round_trip sample_rnd "alice" "wonderland" (NewUserPass newResponseWriter)
           alice_login alice_login_well_formed).
Defined.

Lemma decode_without_auth (members : list (string * json)) (acc : UserPassRequest * option error) :
  Forall (fun m => EqualFold "auth" (fst m) = false) members ->
  fold_left (decode_member [("auth", field Auth (fun x _ => {| Auth := x |}) decode_Auth)])
    members acc = acc.
Proof.
  induction 1 as [|m members Hm _ IH]; [reflexivity|].
  cbn [fold_left]. rewrite <- IH at 2. f_equal.
  unfold decode_member, find_field. cbn [find fst snd].
  destruct (String.eqb_spec "auth" (fst m)) as [He|_].
  - rewrite <- He in Hm. discriminate Hm.
  - now rewrite Hm.
Qed.

(** X15.  A JSON object without an [auth] member is not refused: it is taken
    as a login with the empty user name and the empty password. *)
Theorem missing_auth_is_empty_login
    (us : gmap string UserInfo) (body : string) (members : list (string * json)) :
  parse_json body = Some (JObject members) ->
  Forall (fun m => EqualFold "auth" (fst m) = false) members ->
  respond (J := GoJson) us (post "application/json" body) =
  match us !! EmptyString with
  | None => failure_response StatusUnauthorized notAuthorized
  | Some info =>
      if String.eqb (secret info) EmptyString then success_response (token info)
      else failure_response StatusUnauthorized invalidUser
  end.
Proof.
  intros Hparse Hno.
  apply (respond_login us (post "application/json" body) EmptyString EmptyString).
  split; [reflexivity|]. exists body, zero_UserPassRequest.
  split; [reflexivity|]. split; [|split; reflexivity].
  unfold Unmarshal. rewrite Hparse.
  unfold decode_UserPassRequest, decode_struct. now apply decode_without_auth.
Qed.

Lemma missing_auth_is_empty_login_witness :
  let us := users (snd (AddUser sample_rnd "alice" "wonderland" (NewUserPass newResponseWriter))) in
  respond (J := GoJson) us alice_flat = failure_response StatusUnauthorized notAuthorized.
Proof.
  apply (missing_auth_is_empty_login
           (users (snd (AddUser sample_rnd "alice" "wonderland" (NewUserPass newResponseWriter))))
           (jq "{'username':'alice','password':'wonderland'}")
           [("username", JString "alice"); ("password", JString "wonderland")]).
  - vm_compute. reflexivity.
  - repeat constructor.
Defined.

(** X16.  When the access document cannot be decoded from the fixture or
    cannot be encoded, a login with the right password is answered with
    status 500, whether or not the error envelope can be encoded. *)
Theorem encoding_failure_is_500 {J : EncodingJson}
    (us : gmap string UserInfo) (r : Request) (body : string) (req : UserPassRequest)
    (info : UserInfo) (res : AccessResponse) :
  Header_Get (r_Header r) "Content-Type" = "application/json" ->
  r_Body r = (body, None) ->
  json_Unmarshal_UserPassRequest body zero_UserPassRequest = (req, None) ->
  us !! Username (PasswordCredentials (Auth req)) = Some info ->
  secret info = Password (PasswordCredentials (Auth req)) ->
  fst (json_Unmarshal_AccessResponse exampleResponse zero_AccessResponse) = res ->
  snd (json_Unmarshal_AccessResponse exampleResponse zero_AccessResponse) <> None
  \/ snd (json_Marshal_AccessResponse (with_Token_Id (token info) res)) <> None ->
  w_Code (respond us r) = StatusInternalServerError.
Proof.
  intros Hct Hbody Hreq Hu Hs Hres Hfail.
  unfold respond, ServeHTTP, bind, on_w, users_load, ioutil_ReadAll.
  cbn [fst snd users w events].
  rewrite Hct, Hbody, String.eqb_refl. cbn [negb]. rewrite Hreq. cbn [fst snd users w events].
  rewrite Hu, Hs, String.eqb_refl. cbn [negb].
  destruct (json_Unmarshal_AccessResponse exampleResponse zero_AccessResponse) as [res' [e|]].
  - match goal with
    | |- context [w (snd (ReturnFailure ?a ?b ?s))] =>
        rewrite (ReturnFailure_writer a b s eq_refl)
    end.
    destruct (json_Marshal_ErrorWrapper _) as [? [?|]]; reflexivity.
  - cbn [fst snd] in Hres, Hfail. subst res'.
    destruct Hfail as [Hf|Hf]; [congruence|]. unfold with_Token_Id in Hf.
    destruct (json_Marshal_AccessResponse _) as [content [e|]]; [|now contradict Hf].
    match goal with
    | |- context [w (snd (ReturnFailure ?a ?b ?s))] =>
        rewrite (ReturnFailure_writer a b s eq_refl)
    end.
    destruct (json_Marshal_ErrorWrapper _) as [? [?|]]; reflexivity.
Qed.

Lemma encoding_failure_is_500_witness :
  let us := users (snd (AddUser sample_rnd "alice" "wonderland" (NewUserPass newResponseWriter))) in
  w_Code (respond (J := FailingMarshal) us alice_login) = StatusInternalServerError.
Proof.
  apply (encoding_failure_is_500 (J := FailingMarshal) _ alice_login
           (jq "{'auth':{'passwordCredentials':{'username':'alice','password':'wonderland'}}}")
           {| Auth := {| PasswordCredentials := {| Username := "alice"; Password := "wonderland" |};
                         TenantName := "" |} |}
           {| secret := "wonderland"; token := randomHexToken sample_rnd |}
           template).
  - reflexivity.
  - reflexivity.
  - vm_compute. reflexivity.
  - vm_compute. reflexivity.
  - reflexivity.
  - vm_compute. reflexivity.
  - right. cbn. discriminate.
Defined.

Lemma fold_decode_error_kept {T : Type} (fields : list (string * dec T))
    (members : list (string * json)) (acc : T * option error) :
  snd acc <> None -> snd (fold_left (decode_member fields) members acc) <> None.
Proof.
  revert acc. induction members as [|m members IH]; intros acc Hacc; [exact Hacc|].
  cbn [fold_left]. apply IH. unfold decode_member.
  destruct (find_field fields (fst m)) as [d|]; [|exact Hacc].
  cbn [snd]. destruct (snd acc); [discriminate|contradiction].
Qed.

Lemma fold_decode_error {T : Type} (fields : list (string * dec T))
    (members : list (string * json)) (acc : T * option error) (m : string * json) (d : dec T) :
  In m members ->
  find_field fields (fst m) = Some d ->
  (forall cur, snd (d (snd m) cur) <> None) ->
  snd (fold_left (decode_member fields) members acc) <> None.
Proof.
  intros Hin Hf Hd. revert acc.
  induction members as [|m' members IH]; intros acc; [contradiction|].
  cbn [fold_left]. destruct Hin as [->|Hin]; [|now apply IH].
  apply fold_decode_error_kept. unfold decode_member. rewrite Hf. cbn [snd].
  destruct (snd acc); [discriminate|]. apply Hd.
Qed.

(** X17.  A member of the wrong JSON type is refused even where its value is
    never used: a login whose tenantName is neither a string nor null is
    answered with 400, whatever its user name and password. *)
Theorem wrong_typed_tenant_refused
    (us : gmap string UserInfo) (r : Request) (body : string)
    (top auth : list (string * json)) (v : json) :
  Header_Get (r_Header r) "Content-Type" = "application/json" ->
  r_Body r = (body, None) ->
  parse_json body = Some (JObject top) ->
  In ("auth", JObject auth) top ->
  In ("tenantName", v) auth ->
  kind_of v <> "string" ->
  kind_of v <> "null" ->
  respond (J := GoJson) us r = failure_response StatusBadRequest notJSON.
Proof.
  intros Hct Hbody Hparse Hauth Htenant Hs Hn.
  apply (respond_malformed us r body Hct Hbody).
  unfold Unmarshal. rewrite Hparse. unfold decode_UserPassRequest, decode_struct.
  eapply fold_decode_error; [exact Hauth|reflexivity|]. intros cur.
  unfold field, decode_Auth, decode_struct. cbn [snd fst].
  eapply fold_decode_error; [exact Htenant|reflexivity|]. intros cur'.
  unfold field, decode_string. cbn [snd fst].
  destruct v; try discriminate; cbn in Hs, Hn; congruence.
Qed.

Lemma wrong_typed_tenant_refused_witness :
  let us := users (snd (AddUser sample_rnd "alice" "wonderland" (NewUserPass newResponseWriter))) in
  respond (J := GoJson) us alice_tenant_number = failure_response StatusBadRequest notJSON.
Proof.
  apply (wrong_typed_tenant_refused _ alice_tenant_number
           (jq "{'auth':{'passwordCredentials':{'username':'alice','password':'wonderland'},'tenantName':5}}")
           [("auth", JObject [("passwordCredentials",
                               JObject [("username", JString "alice");
                                        ("password", JString "wonderland")]);
                              ("tenantName", JNumber "5")])]
           [("passwordCredentials",
             JObject [("username", JString "alice"); ("password", JString "wonderland")]);
            ("tenantName", JNumber "5")]
           (JNumber "5")).
  - reflexivity.
  - reflexivity.
  - vm_compute. reflexivity.
  - left. reflexivity.
  - right. left. reflexivity.
  - discriminate.
  - discriminate.
Defined.

Lemma respond_shape (us : gmap string UserInfo) (r : Request) :
  respond (J := GoJson) us r = failure_response StatusBadRequest notJSON
  \/ respond (J := GoJson) us r = bare_bad_request
  \/ respond (J := GoJson) us r = failure_response StatusUnauthorized notAuthorized
  \/ respond (J := GoJson) us r = failure_response StatusUnauthorized invalidUser
  \/ exists user info,
       us !! user = Some info /\ respond (J := GoJson) us r = success_response (token info).
Proof.
  destruct (String.eqb_spec (Header_Get (r_Header r) "Content-Type") "application/json")
    as [Hct|Hct].
  2:{ left. unfold respond, ServeHTTP, bind, on_w. cbn [fst snd users w events].
      apply String.eqb_neq in Hct. rewrite Hct. cbn [negb]. now apply ReturnFailure_new. }
  destruct (r_Body r) as [body [err|]] eqn:Hbody.
  { right. left. unfold respond, ServeHTTP, bind, on_w, ioutil_ReadAll.
    cbn [fst snd users w events]. rewrite Hct, Hbody, String.eqb_refl. reflexivity. }
  destruct (Unmarshal decode_UserPassRequest body zero_UserPassRequest) as [req [err|]] eqn:Hreq.
  { left. apply (respond_malformed us r body Hct Hbody). now rewrite Hreq. }
  rewrite (respond_login us r (Username (PasswordCredentials (Auth req)))
             (Password (PasswordCredentials (Auth req)))).
  2:{ split; [exact Hct|]. exists body, req. auto. }
  destruct (us !! Username (PasswordCredentials (Auth req))) as [info|] eqn:Hu.
  2:{ right. right. left. reflexivity. }
  destruct (String.eqb (secret info) (Password (PasswordCredentials (Auth req)))).
  2:{ right. right. right. left. reflexivity. }
  do 4 right. exists (Username (PasswordCredentials (Auth req))), info.
  split; [exact Hu|reflexivity].
Qed.

Lemma registered_plain (cs : list call) (user : string) (before : option UserInfo) (info : UserInfo) :
  (forall i, before = Some i -> plain (token i) = true) ->
  registered cs user before = Some info ->
  plain (token info) = true.
Proof.
  revert before. induction cs as [|[rnd u pw|r] cs IH]; intros before Hb Hr; cbn [registered] in Hr.
  - now apply Hb.
  - apply (IH _) in Hr; [exact Hr|]. intros i Hi.
    destruct (String.eqb u user); [|now apply Hb].
    injection Hi as <-. apply randomHexToken_plain.
  - now apply (IH before).
Qed.

(** X18.  Whatever was registered and served before, the body of a response
    of a [UserPass] made by [NewUserPass] is empty (the bare 400) or valid
    JSON. *)
Theorem responses_are_json (cs : list call) (w0 : ResponseWriter) (r : Request) :
  let resp := respond (J := GoJson) (users (run (J := GoJson) cs (NewUserPass w0))) r in
  w_Body resp = EmptyString \/ json_Valid (w_Body resp) = true.
Proof.
  cbn zeta.
  destruct (respond_shape (users (run (J := GoJson) cs (NewUserPass w0))) r)
    as [->|[->|[->|[->|(user & info & Hu & ->)]]]].
  - right. vm_compute. reflexivity.
  - left. reflexivity.
  - right. vm_compute. reflexivity.
  - right. vm_compute. reflexivity.
  - right. rewrite users_after_run in Hu.
    assert (Hp : plain (token info) = true).
    { apply (registered_plain cs user (users (NewUserPass w0) !! user) info); [|exact Hu].
      cbn [NewUserPass users]. rewrite lookup_empty. discriminate. }
    pose proof (success_body_token (token info) Hp) as Hb.
    cbn [w_Body success_response]. unfold json_Valid.
    unfold body_at in Hb. destruct (parse_json _); [reflexivity|discriminate Hb].
Qed.

Lemma store_read_only_when_well_formed_witness :
  trace (ServeHTTP (J := GoJson) alice_login) ∅ = [MapRead "alice"].
Proof.
  exact (proj1 (store_read_only_when_well_formed ∅ alice_login)
           "alice" "wonderland" alice_login_well_formed).
Defined.

(** ** Every encoded string is read by the scanner *)

Lemma accepted_app (e1 e2 : string) : accepted e1 -> accepted e2 -> accepted (e1 +:+ e2).
Proof.
  intros H1 H2 acc toks. rewrite lex_run_app, H1, H2. now rewrite append_assoc.
Qed.

Lemma accepted_nil : accepted EmptyString.
Proof. intros acc toks. cbn [lex_run]. now rewrite append_nil_r. Qed.

Lemma accepted_escape_ascii (c : ascii) : (code c <? 128)%N = true -> accepted (escape_ascii c).
Proof.
  intros Hc acc toks.
  destruct c as [[] [] [] [] [] [] [] []]; try discriminate Hc;
    cbv -[String.append]; rewrite ?append_assoc; reflexivity.
Qed.

Lemma accepted_high (s : string) : all_high s = true -> accepted s.
Proof.
  induction s as [|c s IH]; intros Hs; [apply accepted_nil|].
  cbn [all_high] in Hs. apply andb_prop in Hs as [Hc Hs].
  change (String c s) with (String c EmptyString +:+ s).
  apply accepted_app; [|now apply IH].
  intros acc toks. cbn [lex_run].
  destruct c as [[] [] [] [] [] [] [] []]; try discriminate Hc; reflexivity.
Qed.

Lemma in_range_high (lo hi : N) (c : ascii) :
  in_range lo hi c = true -> (128 <=? lo)%N = true -> high c = true.
Proof.
  unfold in_range, high. intros H Hlo. apply andb_prop in H as [H _].
  apply N.leb_le in Hlo, H. apply N.leb_le. lia.
Qed.

Lemma utf8_len_high (s : string) (n : nat) :
  utf8_len s = Some n -> all_high (take_bytes n s) = true.
Proof.
  unfold utf8_len.
  destruct s as [|b0 [|b1 rest]]; try discriminate.
  destruct (in_range 194 223 b0) eqn:H0.
  { destruct (in_range 128 191 b1) eqn:H1; intros [= <-]. cbn [take_bytes all_high].
    apply in_range_high in H0, H1; try reflexivity. now rewrite H0, H1. }
  destruct rest as [|b2 rest]; try discriminate.
  destruct (in_range 224 239 b0) eqn:H3.
  { destruct (Ascii.eqb b0 (chr 224)), (Ascii.eqb b0 (chr 237));
      match goal with
      | |- (if ?a && ?b then _ else _) = _ -> _ =>
          destruct a eqn:Ha; destruct b eqn:Hb; cbn [andb]; intros [= <-]
      end;
      cbn [take_bytes all_high];
      apply in_range_high in H3, Ha, Hb; try reflexivity; now rewrite H3, Ha, Hb. }
  destruct rest as [|b3 rest]; try discriminate.
  destruct (in_range 240 244 b0) eqn:H4; cbn [andb]; try discriminate.
  destruct (Ascii.eqb b0 (chr 240)), (Ascii.eqb b0 (chr 244));
    match goal with
    | |- (if ?a && ?b && ?c then _ else _) = _ -> _ =>
        destruct a eqn:Ha; destruct b eqn:Hb; destruct c eqn:Hc; cbn [andb]; intros [= <-]
    end;
    cbn [take_bytes all_high];
    apply in_range_high in H4, Ha, Hb, Hc; try reflexivity; now rewrite H4, Ha, Hb, Hc.
Qed.

Lemma accepted_escape_go (fuel : nat) (s : string) : accepted (escape_go fuel s).
Proof.
  revert s. induction fuel as [|fuel IH]; intros s; [apply accepted_nil|].
  destruct s as [|c rest]; [apply accepted_nil|]. cbn [escape_go].
  destruct (code c <? 128)%N eqn:Hc.
  - apply accepted_app; [now apply accepted_escape_ascii|apply IH].
  - destruct (utf8_len (String c rest)) as [n|] eqn:Hn.
    + repeat match goal with
      | |- context [if ?b then _ else _] => destruct b
      end; (apply accepted_app; [|apply IH]).
      * intros acc toks. cbv -[String.append]. rewrite ?append_assoc. reflexivity.
      * intros acc toks. cbv -[String.append]. rewrite ?append_assoc. reflexivity.
      * apply accepted_high, utf8_len_high, Hn.
    + apply accepted_app; [|apply IH].
      intros acc toks. cbv -[String.append]. rewrite ?append_assoc. reflexivity.
Qed.

(** Every encoded string is one string lexeme. *)
Lemma lex_run_encodeString (s rest : string) (toks : list lexeme) :
  lex_run LIdle toks (encodeString s +:+ rest)
  = lex_run LIdle (TString (unquote (escape_go (String.length s) s)) :: toks) rest.
Proof.
  unfold encodeString. rewrite append_assoc, append_cons. cbn [lex_run].
  change (lex_step LIdle toks dq) with (Some (LStr EmptyString, toks)). cbn iota.
  rewrite lex_run_app, accepted_escape_go.
  rewrite append_nil_l, append_cons. cbn [lex_run].
  match goal with
  | |- context [lex_step (LStr ?a) toks dq] =>
      change (lex_step (LStr a) toks dq) with (Some (LIdle, TString (unquote a) :: toks))
  end.
  reflexivity.
Qed.

Lemma read_from_encodeString (path : list string) (s rest : string) (toks : list lexeme) :
  read_from path LIdle toks (encodeString s +:+ rest)
  = read_from path LIdle (TString (read_back s) :: toks) rest.
Proof. unfold read_from, read_back. now rewrite lex_run_encodeString. Qed.

Lemma read_back_plain (s : string) : plain s = true -> read_back s = s.
Proof.
  intros Hp. unfold read_back. rewrite escape_go_plain; [now apply unquote_plain|exact Hp|lia].
Qed.


(** ** Claim C1 *)




(** ** Claim C4 *)

Lemma run_keeps_user (cs : list call) (user : string) (info : UserInfo) (s : State) :
  forallb (fun c => negb (registers user c)) cs = true ->
  users s !! user = Some info ->
  users (run (J := GoJson) cs s) !! user = Some info
  /\ Forall
       (fun rw =>
          forall password,
            well_formed_login (fst rw) user password ->
            w_Code (snd rw) = StatusOK ->
            snd rw = success_response (token info))
       (run_log (J := GoJson) cs s).
Proof.
  revert s. induction cs as [|[rnd u pw|r] cs IH]; intros s Hcs Hu;
    cbn [forallb registers] in Hcs; cbn [run run_log].
  - split; [exact Hu|constructor].
  - apply andb_prop in Hcs as [Hne Hcs]. apply IH; [exact Hcs|].
    unfold AddUser, bind, users_store, ret. cbn [fst snd users].
    apply negb_true_iff, String.eqb_neq in Hne. now rewrite lookup_insert_ne.
  - apply andb_prop in Hcs as [_ Hcs].
    assert (Hus : users (snd (ServeHTTP (J := GoJson) r (with_writer newResponseWriter s)))
                  = users s) by now rewrite ServeHTTP_users.
    destruct (IH _ Hcs (eq_trans (f_equal (fun m => m !! user) Hus) Hu)) as [IHu IHf].
    split; [exact IHu|]. constructor; [|exact IHf].
    cbn [fst snd]. rewrite serve_one. intros password Hr Hok.
    rewrite (respond_login _ r user password Hr), Hu in Hok |- *.
    destruct (String.eqb (secret info) password); [reflexivity|discriminate Hok].
Qed.

(** C4.  [AddUser] stores the token it returns, and no request served
    changes the [users] map.  From a registration of a user on, through any
    calls that do not register that user again (requests, and registrations
    of other users), the record of the user stays the one stored, and every
    login of the user answered with 200 is the success response with that
    token, whose access.token.id reads back as it. *)
Theorem token_stable
    (rnd : nat -> ascii) (user pw : string) (cs : list call) (s : State) :
  forallb (fun c => negb (registers user c)) cs = true ->
  let reg := AddUser rnd user pw s in
  users (snd reg) !! user = Some {| secret := pw; token := fst reg |}
  /\ (forall r s0, users (snd (ServeHTTP (J := GoJson) r s0)) = users s0)
  /\ users (run (J := GoJson) cs (snd reg)) !! user = Some {| secret := pw; token := fst reg |}
  /\ Forall
       (fun rw =>
          forall password,
            well_formed_login (fst rw) user password ->
            w_Code (snd rw) = StatusOK ->
            snd rw = success_response (fst reg)
            /\ body_at ["access"; "token"; "id"] (w_Body (snd rw)) = Some (JString (fst reg)))
       (run_log (J := GoJson) cs (snd reg)).
Proof.
  intros Hcs reg.
  assert (Hreg : users (snd reg) !! user = Some {| secret := pw; token := fst reg |}).
  { subst reg. unfold AddUser, bind, users_store, ret. cbn [fst snd users].
    apply lookup_insert_eq. }
  split; [exact Hreg|]. split; [intros r s0; apply ServeHTTP_users|].
  destruct (run_keeps_user cs user _ (snd reg) Hcs Hreg) as [Hu Hf].
  split; [exact Hu|].
  eapply Forall_impl; [exact Hf|]. cbn [token]. intros rw H password Hr Hok.
  rewrite (H password Hr Hok). split; [reflexivity|].
  cbn [w_Body success_response]. apply success_body_token.
  subst reg. apply randomHexToken_plain.
Qed.

Lemma token_stable_witness :
  let reg := AddUser sample_rnd "alice" "wonderland" (NewUserPass newResponseWriter) in
  users (snd reg) !! "alice" = Some {| secret := "wonderland"; token := fst reg |}
  /\ (forall r s0, users (snd (ServeHTTP (J := GoJson) r s0)) = users s0)
  /\ users (run (J := GoJson) alice_bob_alice (snd reg)) !! "alice"
     = Some {| secret := "wonderland"; token := fst reg |}
  /\ Forall
       (fun rw =>
          forall password,
            well_formed_login (fst rw) "alice" password ->
            w_Code (snd rw) = StatusOK ->
            snd rw = success_response (fst reg)
            /\ body_at ["access"; "token"; "id"] (w_Body (snd rw)) = Some (JString (fst reg)))
       (run_log (J := GoJson) alice_bob_alice (snd reg)).
Proof.
  apply (token_stable sample_rnd "alice" "wonderland" alice_bob_alice
           (NewUserPass newResponseWriter)).
  reflexivity.
Defined.

(** The two logins of alice around the registration of bob get the same
    200 response. *)
Example alice_bob_alice_responses :
  map (fun rw => w_Code (snd rw))
    (run_log (J := GoJson) alice_bob_alice
       (snd (AddUser sample_rnd "alice" "wonderland" (NewUserPass newResponseWriter))))
  = [StatusOK; StatusOK]
  /\ map (fun rw => body_at ["access"; "token"; "id"] (w_Body (snd rw)))
       (run_log (J := GoJson) alice_bob_alice
          (snd (AddUser sample_rnd "alice" "wonderland" (NewUserPass newResponseWriter))))
     = [Some (JString (randomHexToken sample_rnd)); Some (JString (randomHexToken sample_rnd))].
Proof. vm_compute. split; reflexivity. Qed.

(** ** Claim C7 *)

Lemma exampleResponse_decoded :
  Unmarshal decode_AccessResponse exampleResponse zero_AccessResponse = (exampleAccess, None).
Proof. vm_compute. reflexivity. Qed.

Lemma template_exampleAccess : template = exampleAccess.
Proof. vm_compute. reflexivity. Qed.

Lemma success_body_bytes :
  encode_before_id exampleAccess = success_body_before
  /\ encode_after_id exampleAccess = success_body_after.
Proof. vm_compute. split; reflexivity. Qed.

Lemma unmarshal_success_body_any (id : string) :
  Unmarshal decode_AccessResponse (encodeAccessResponse (with_Token_Id id template))
    zero_AccessResponse
  = (with_Token_Id (read_back id) template, None).
Proof.
  unfold Unmarshal.
  rewrite parse_json_read_from, encode_split.
  rewrite read_from_app, lex_prefix, read_from_encodeString.
  apply decode_success_suffix.
Qed.

(** C7.  A request answered with 200 is a well-formed login of a registered
    user with the right password, and its body is the encoding of the
    decoded fixture with access.token.id set to the token stored for that
    user: the bytes around the encoded token are those of the fixture's
    catalog, token expiry, tenant, user and roles; decoding the body gives
    back the decoded fixture with only the token id replaced. *)
Theorem success_document (us : gmap string UserInfo) (r : Request) :
  w_Code (respond (J := GoJson) us r) = StatusOK ->
  exists user password info,
    well_formed_login r user password
    /\ us !! user = Some info
    /\ secret info = password
    /\ Unmarshal decode_AccessResponse exampleResponse zero_AccessResponse = (exampleAccess, None)
    /\ w_Body (respond (J := GoJson) us r)
       = encodeAccessResponse (with_Token_Id (token info) exampleAccess)
    /\ w_Body (respond (J := GoJson) us r)
       = success_body_before +:+ encodeString (token info) +:+ success_body_after
    /\ Unmarshal decode_AccessResponse (w_Body (respond (J := GoJson) us r)) zero_AccessResponse
       = (with_Token_Id (read_back (token info)) exampleAccess, None)
    /\ (plain (token info) = true -> read_back (token info) = token info)
    /\ Token_Id (Token (Access (with_Token_Id (token info) exampleAccess))) = token info
    /\ ServiceCatalog (Access (with_Token_Id (token info) exampleAccess))
       = ServiceCatalog (Access exampleAccess)
    /\ User (Access (with_Token_Id (token info) exampleAccess)) = User (Access exampleAccess)
    /\ Token_Expires (Token (Access (with_Token_Id (token info) exampleAccess)))
       = Token_Expires (Token (Access exampleAccess))
    /\ Token_Tenant (Token (Access (with_Token_Id (token info) exampleAccess)))
       = Token_Tenant (Token (Access exampleAccess)).
Proof.
  intros Hok.
  destruct (respond_ok us r Hok) as (user & password & info & Hr & Hu & Hs & Hresp).
  exists user, password, info.
  split; [exact Hr|]. split; [exact Hu|]. split; [exact Hs|].
  split; [exact exampleResponse_decoded|].
  rewrite Hresp. cbn [w_Body success_response]. rewrite template_exampleAccess.
  split; [reflexivity|].
  split.
  { rewrite encode_split. destruct success_body_bytes as [-> ->]. reflexivity. }
  split.
  { rewrite <- template_exampleAccess. apply unmarshal_success_body_any. }
  split; [apply read_back_plain|].
  apply with_Token_Id_frame.
Qed.

Lemma success_document_witness :
  let us := users (snd (AddUser sample_rnd "alice" "wonderland" (NewUserPass newResponseWriter))) in
  exists user password info,
    well_formed_login alice_login user password
    /\ us !! user = Some info
    /\ secret info = password
    /\ Unmarshal decode_AccessResponse exampleResponse zero_AccessResponse = (exampleAccess, None)
    /\ w_Body (respond (J := GoJson) us alice_login)
       = encodeAccessResponse (with_Token_Id (token info) exampleAccess)
    /\ w_Body (respond (J := GoJson) us alice_login)
       = success_body_before +:+ encodeString (token info) +:+ success_body_after
    /\ Unmarshal decode_AccessResponse (w_Body (respond (J := GoJson) us alice_login))
         zero_AccessResponse
       = (with_Token_Id (read_back (token info)) exampleAccess, None)
    /\ (plain (token info) = true -> read_back (token info) = token info)
    /\ Token_Id (Token (Access (with_Token_Id (token info) exampleAccess))) = token info
    /\ ServiceCatalog (Access (with_Token_Id (token info) exampleAccess))
       = ServiceCatalog (Access exampleAccess)
    /\ User (Access (with_Token_Id (token info) exampleAccess)) = User (Access exampleAccess)
    /\ Token_Expires (Token (Access (with_Token_Id (token info) exampleAccess)))
       = Token_Expires (Token (Access exampleAccess))
    /\ Token_Tenant (Token (Access (with_Token_Id (token info) exampleAccess)))
       = Token_Tenant (Token (Access exampleAccess)).
Proof.
  apply (success_document _ alice_login). vm_compute. reflexivity.
Defined.
